(** * DocuMentor: route-parameter extraction, request synthesis,
      response classification and validation

    A shallow embedding of the test pipeline of DocuMentor
    ([utils/parser], [testers/endpoint], [testers/schema], [testers/index])
    together with the properties its specification states about it. *)

From Stdlib Require Import ZArith List String Ascii Bool Arith Lia DecimalString.
From Equations Require Import Equations.
Import ListNotations.

Set Warnings "-register-all".
Open Scope string_scope.

(* ===================================================================== *)
(** ** JavaScript values and the built-ins the pipeline relies on *)
(* ===================================================================== *)

Module JS.

(** The values that flow through the pipeline are JSON-like ([any] in the
    TypeScript sources).  Numbers are the integral ones of magnitude below
    [2^53] (status codes, literals such as [123]); [NaN], fractions and [-0]
    are left out.  An object is a plain one, as an object literal or
    [JSON.parse] makes it: it lists its own enumerable properties in the
    order [Object.entries] reports them (array-index keys in ascending
    order, then the other keys in order of creation), and its prototype is
    [Object.prototype], whose members are the built-in functions a property
    read can reach ([JFunction], named as [Function.prototype.name] reports
    them). *)
Inductive JSValue : Type :=
| JUndefined
| JNull
| JBool (b : bool)
| JNumber (n : Z)
| JString (s : string)
| JArray (xs : list JSValue)
| JObject (props : list (string * JSValue))
| JFunction (name : string).

(** [ToBoolean]: what [if (v)], [!v], [v || w] and [v && w] test. *)
Definition truthy (v : JSValue) : bool :=
  match v with
  | JUndefined | JNull => false
  | JBool b => b
  | JNumber n => negb (n =? 0)%Z
  | JString s => negb (s =? EmptyString)
  | JArray _ | JObject _ | JFunction _ => true
  end.

(** [a || b] *)
Definition js_or (a b : JSValue) : JSValue := if truthy a then a else b.

(** [v !== undefined] *)
Definition is_defined (v : JSValue) : bool :=
  match v with JUndefined => false | _ => true end.

(** [typeof v] *)
Definition typeof (v : JSValue) : string :=
  match v with
  | JUndefined => "undefined"
  | JNull => "object"
  | JBool _ => "boolean"
  | JNumber _ => "number"
  | JString _ => "string"
  | JArray _ | JObject _ => "object"
  | JFunction _ => "function"
  end.

(** [v === null] *)
Definition is_null (v : JSValue) : bool :=
  match v with JNull => true | _ => false end.

(** [Array.isArray(v)] *)
Definition Array_isArray (v : JSValue) : bool :=
  match v with JArray _ => true | _ => false end.

(** The own property of a name in a property table. *)
Fixpoint lookup {A : Type} (k : string) (props : list (string * A)) : option A :=
  match props with
  | [] => None
  | (k', v) :: rest => if k' =? k then Some v else lookup k rest
  end.

(** [Object.prototype.hasOwnProperty.call(o, k)] *)
Definition owns {A : Type} (k : string) (props : list (string * A)) : bool :=
  match lookup k props with Some _ => true | None => false end.

(** The array index a key denotes, if any: the key is the canonical decimal
    numeral of an integer from [0] to [2^32 - 2]. *)
Definition digit (c : ascii) : option N :=
  let n := N_of_ascii c in
  if ((48 <=? n) && (n <=? 57))%N then Some (n - 48)%N else None.

Fixpoint numeral (acc : N) (s : string) : option N :=
  match s with
  | EmptyString => Some acc
  | String c rest =>
      match digit c with
      | Some d => numeral (10 * acc + d)%N rest
      | None => None
      end
  end.

Definition array_index (k : string) : option N :=
  match k with
  | EmptyString => None
  | String c rest =>
      if (c =? "0")%char && negb (rest =? EmptyString) then None
      else match numeral 0 k with
           | Some n => if (n <=? 4294967294)%N then Some n else None
           | None => None
           end
  end.

(** Writing the value of a property the table owns. *)
Fixpoint update {A : Type} (k : string) (v : A) (props : list (string * A))
  : list (string * A) :=
  match props with
  | [] => []
  | (k', v') :: rest =>
      if k' =? k then (k', v) :: rest else (k', v') :: update k v rest
  end.

(** Creating a property whose key is the array index [i]: it is listed
    after the smaller array indices and before every other key. *)
Fixpoint place {A : Type} (i : N) (k : string) (v : A) (props : list (string * A))
  : list (string * A) :=
  match props with
  | [] => [(k, v)]
  | (k', v') :: rest =>
      match array_index k' with
      | Some j => if (j <? i)%N then (k', v') :: place i k v rest
                  else (k, v) :: props
      | None => (k, v) :: props
      end
  end.

(** Defining an own property, as an object literal and a spread do
    ([CreateDataProperty]): an existing property keeps its place, a new one
    with an array-index key is listed among the array indices, any other new
    one comes last. *)
Definition define {A : Type} (k : string) (v : A) (props : list (string * A))
  : list (string * A) :=
  if owns k props then update k v props
  else match array_index k with
       | Some i => place i k v props
       | None => (props ++ [(k, v)])%list
       end.

(** [o[k] = v] on a plain object.  It defines the property, except for the
    key [__proto__] when the object does not own it: that assignment reaches
    the accessor inherited from [Object.prototype], which creates no
    property.  The accessor ignores a value that is neither an object nor
    [null]; otherwise it sets the prototype link, which a property table
    does not hold: a table stands for an object whose link is still
    [Object.prototype], so what a further assignment of [__proto__] does
    after one that changed the link is not described. *)
Definition assign {A : Type} (k : string) (v : A) (props : list (string * A))
  : list (string * A) :=
  if (k =? "__proto__") && negb (owns k props) then props
  else define k v props.

(** The members every plain object inherits: [Object.prototype[k]], with
    [Object.prototype] as the language defines it.  Reading [__proto__]
    yields [Object.prototype] itself, an object without enumerable
    properties. *)
Definition Object_prototype (k : string) : JSValue :=
  if k =? "constructor" then JFunction "Object"
  else if existsb (String.eqb k)
                  ["toString"; "toLocaleString"; "valueOf"; "hasOwnProperty";
                   "isPrototypeOf"; "propertyIsEnumerable";
                   "__defineGetter__"; "__defineSetter__";
                   "__lookupGetter__"; "__lookupSetter__"]
  then JFunction k
  else if k =? "__proto__" then JObject []
  else JUndefined.

(** [o[k]] where [o : Record<string, any>] is a plain object: its own
    property of that name, and otherwise the inherited member. *)
Definition get (props : list (string * JSValue)) (k : string) : JSValue :=
  match lookup k props with Some v => v | None => Object_prototype k end.

(** [v.k] for one of the fixed, non-index keys the pipeline reads
    ([type], [items], [properties], [example], [default], [$ref]): only an
    object can own such a property, and no prototype has one. *)
Definition get_prop (v : JSValue) (k : string) : JSValue :=
  match v with
  | JObject props => get props k
  | _ => JUndefined
  end.

(** Decimal rendering of a number, as in a template literal. *)
Definition string_of_Z (n : Z) : string := NilZero.string_of_int (Z.to_int n).

(** [xs.join(sep)] on strings. *)
Fixpoint join (sep : string) (xs : list string) : string :=
  match xs with
  | [] => EmptyString
  | [x] => x
  | x :: rest => x ++ sep ++ join sep rest
  end.

(** [String(v)].  An object converts as [Object.prototype.toString] does,
    which is the conversion of every object that owns no [toString] or
    [valueOf] property of its own (the conversion of one that does is not
    described). *)
Fixpoint ToString (v : JSValue) : string :=
  match v with
  | JUndefined => "undefined"
  | JNull => "null"
  | JBool true => "true"
  | JBool false => "false"
  | JNumber n => string_of_Z n
  | JString s => s
  | JArray xs =>
      join "," (map (fun x => match x with
                              | JUndefined | JNull => EmptyString
                              | _ => ToString x
                              end) xs)
  | JObject _ => "[object Object]"
  | JFunction name => "function " ++ name ++ "() { [native code] }"
  end.

(** Decimal index keys ["0"], ["1"], ... *)
Definition index_key (i : nat) : string := string_of_Z (Z.of_nat i).

Fixpoint indexed {A : Type} (i : nat) (xs : list A) : list (string * A) :=
  match xs with
  | [] => []
  | x :: rest => (index_key i, x) :: indexed (S i) rest
  end.

Fixpoint chars (s : string) : list JSValue :=
  match s with
  | EmptyString => []
  | String c rest => JString (String c EmptyString) :: chars rest
  end.

(** [Object.entries(v)] for a value that is not [null] or [undefined]. *)
Definition Object_entries (v : JSValue) : list (string * JSValue) :=
  match v with
  | JObject props => props
  | JArray xs => indexed 0 xs
  | JString s => indexed 0 (chars s)
  | _ => []
  end.

(** [s.includes(t)], [s.startsWith(t)], [s.endsWith(t)],
    [s.replace(t, r)] with a string pattern (first occurrence only; the
    replacement is taken literally, as it is for the percent-encoded text
    [buildUrl] passes, which holds no [$]). *)
Fixpoint includes (t s : string) : bool :=
  prefix t s ||
  match s with
  | EmptyString => false
  | String _ rest => includes t rest
  end.

Definition startsWith (t s : string) : bool := prefix t s.

Definition endsWith (t s : string) : bool :=
  (String.length t <=? String.length s)%nat &&
  (substring (String.length s - String.length t) (String.length t) s =? t).

Fixpoint replace (t r s : string) : string :=
  if prefix t s
  then r ++ substring (String.length t) (String.length s - String.length t) s
  else match s with
       | EmptyString => EmptyString
       | String c rest => String c (replace t r rest)
       end.

(** [s.toLowerCase()] on ASCII letters. *)
Definition lower_ascii (c : ascii) : ascii :=
  let n := nat_of_ascii c in
  if ((65 <=? n) && (n <=? 90))%nat then ascii_of_nat (n + 32) else c.

Fixpoint toLowerCase (s : string) : string :=
  match s with
  | EmptyString => EmptyString
  | String c rest => String (lower_ascii c) (toLowerCase rest)
  end.

End JS.
Import JS.

(* ===================================================================== *)
(** ** utils/parser: parseRouteParams *)
(* ===================================================================== *)

Module Parser.

(** The character class [[a-zA-Z0-9_]]. *)
Definition word_char (c : ascii) : bool :=
  let n := nat_of_ascii c in
  (((97 <=? n) && (n <=? 122)) || ((65 <=? n) && (n <=? 90))
   || ((48 <=? n) && (n <=? 57)) || (n =? 95))%nat.

(** The greedy run [[a-zA-Z0-9_]*] at the head of [s], and what follows. *)
Fixpoint take_word (s : string) : string * string :=
  match s with
  | EmptyString => (EmptyString, EmptyString)
  | String c rest =>
      if word_char c
      then let (w, r) := take_word rest in (String c w, r)
      else (EmptyString, s)
  end.

(** The two global regular expressions of [parseRouteParams]. *)
Inductive Regex : Type :=
| ColonParam   (* /:([a-zA-Z0-9_]+)/g *)
| BraceParam.  (* /{([a-zA-Z0-9_]+)}/g *)

(** [regex.exec(path)] on the text that starts at [lastIndex]: the leftmost
    match, as its capture group together with the text after the match
    (where the next [exec] resumes); [None] is [null]. *)
Fixpoint exec (re : Regex) (s : string) : option (string * string) :=
  match s with
  | EmptyString => None
  | String c rest =>
      match re with
      | ColonParam =>
          if (c =? ":")%char then
            match take_word rest with
            | (EmptyString, _) => exec re rest
            | (w, after) => Some (w, after)
            end
          else exec re rest
      | BraceParam =>
          if (c =? "{")%char then
            match take_word rest with
            | (String a w, String d after) =>
                if (d =? "}")%char then Some (String a w, after)
                else exec re rest
            | _ => exec re rest
            end
          else exec re rest
      end
  end.

Lemma take_word_length s :
  String.length (fst (take_word s)) + String.length (snd (take_word s))
  = String.length s.
Proof.
  induction s as [|c s IH]; simpl; [reflexivity|].
  destruct (word_char c); simpl; [|reflexivity].
  destruct (take_word s) as [w r]; simpl in *. lia.
Qed.

Lemma exec_shrinks re s w after :
  exec re s = Some (w, after) -> String.length after < String.length s.
Proof.
  induction s as [|c s IH]; simpl; [discriminate|].
  pose proof (take_word_length s) as L.
  destruct re.
  - destruct (c =? ":")%char.
    + destruct (take_word s) as [[|a u] r] eqn:E; simpl in L.
      * intros H. apply IH in H. lia.
      * intros H. inversion H; subst. lia.
    + intros H. apply IH in H. lia.
  - destruct (c =? "{")%char.
    + destruct (take_word s) as [[|a u] [|d r]] eqn:E; simpl in L;
        try (intros H; apply IH in H; lia).
      destruct (d =? "}")%char.
      * intros H. inversion H; subst. lia.
      * intros H. apply IH in H. lia.
    + intros H. apply IH in H. lia.
Qed.

Definition inspect {A : Type} (a : A) : {b : A | a = b} := exist _ a eq_refl.

(** [while ((match = regex.exec(path)) !== null) params.push(match[1])]:
    the captures pushed by one loop, in the order they are pushed. *)
Equations exec_loop (re : Regex) (s : string) : list string
  by wf (String.length s) lt :=
  exec_loop re s with inspect (exec re s) := {
    | exist _ (Some (w, after)) E => w :: exec_loop re after
    | exist _ None _ => []
  }.
Next Obligation.
  eapply exec_shrinks; eassumption.
Qed.

(** [parseRouteParams(path)] *)
Definition parseRouteParams (path : string) : list string :=
  let params := exec_loop ColonParam path in
  (* Also handle Express.js style {paramName} format *)
  params ++ exec_loop BraceParam path.

End Parser.

(* ===================================================================== *)
(** ** utils/types: the canonical endpoint model *)
(* ===================================================================== *)

(** The members of [HttpMethod].  The test pipeline tells [post], [put]
    and [patch] from every other method name and otherwise only passes the
    name on. *)
Inductive HttpMethod : Type := GET | POST | PUT | DELETE | PATCH | HEAD | OPTIONS.

(** The string value of an [HttpMethod] member. *)
Definition method_name (m : HttpMethod) : string :=
  match m with
  | GET => "GET" | POST => "POST" | PUT => "PUT" | DELETE => "DELETE"
  | PATCH => "PATCH" | HEAD => "HEAD" | OPTIONS => "OPTIONS"
  end.

Inductive ResponseFormat : Type := JSON | XML | TEXT | HTML | BINARY.

(** [Parameter.in] *)
Inductive Location : Type := InPath | InQuery | InBody | InHeader.

Definition Location_eqb (a b : Location) : bool :=
  match a, b with
  | InPath, InPath | InQuery, InQuery | InBody, InBody | InHeader, InHeader => true
  | _, _ => false
  end.

(** An optional field of type [any] holds [JUndefined] when it is absent. *)
Module Param.
Record t : Type := mk {
  name : string;
  type : string;
  required : bool;
  location : Location;          (* in *)
  description : option string;
  default : JSValue;
  example : JSValue;
  enum : option (list JSValue);
  format : option string;
  schema : JSValue
}.
End Param.

Module Response.
Record t : Type := mk {
  statusCode : Z;
  description : string;
  format : ResponseFormat;
  schema : JSValue
}.
End Response.

Module ApiEndpoint.
Record t : Type := mk {
  path : string;
  method : HttpMethod;
  parameters : list Param.t;
  responses : list Response.t;
  description : string;
  summary : string;
  tags : list string;
  deprecated : bool
}.
End ApiEndpoint.

(* ===================================================================== *)
(** ** testers/endpoint: records *)
(* ===================================================================== *)

Module TestConfig.
Record t : Type := mk {
  baseUrl : string;
  headers : option (list (string * string));
  timeout : option Z;
  validateSchema : option bool;
  paramValues : option (list (string * JSValue))
}.
End TestConfig.

Module EndpointTestResult.
Record t : Type := mk {
  endpoint : ApiEndpoint.t;
  success : bool;
  statusCode : option Z;
  responseTime : option Z;
  error : option string;
  responseBody : JSValue
}.
End EndpointTestResult.

(** The request handed to the HTTP client ([validateStatus] is the constant
    [() => true]: no status code makes the client throw). *)
Module AxiosRequestConfig.
Record t : Type := mk {
  method : string;
  url : string;
  headers : list (string * string);
  timeout : Z;
  data : JSValue
}.
End AxiosRequestConfig.

Module AxiosResponse.
Record t : Type := mk {
  status : Z;
  data : JSValue
}.
End AxiosResponse.

(** What a [catch (error)] clause can receive. *)
Inductive Thrown : Type :=
| ErrorInstance (message : string)   (* error instanceof Error *)
| NotAnError (v : JSValue).

(** [error instanceof Error ? error.message : 'Unknown error'] *)
Definition error_message (error : Thrown) : string :=
  match error with
  | ErrorInstance message => message
  | NotAnError _ => "Unknown error"
  end.

(** Outcome of a call that may throw. *)
Inductive Outcome (A : Type) : Type :=
| Returns (a : A)
| Throws (error : Thrown).
Arguments Returns {A} a.
Arguments Throws {A} error.

(* ===================================================================== *)
(** ** testers/endpoint: value synthesis *)
(* ===================================================================== *)

Module Generator.
Section WithParamValues.

Variable paramValues : option (list (string * JSValue)).

(** [paramValues && paramValues[k] !== undefined] *)
Definition provided (k : string) : bool :=
  match paramValues with
  | Some values => is_defined (get values k)
  | None => false
  end.

(** [paramValues[k]] *)
Definition provided_value (k : string) : JSValue :=
  match paramValues with
  | Some values => get values k
  | None => JUndefined
  end.

(** The bodies of the two mutually recursive functions, with the recursive
    call to [generateDataFromSchema] left open as [generate]. *)
Section Bodies.
Variable generate : JSValue -> JSValue.

(** [generateObjectFromSchema(schema, paramValues)] *)
Definition generateObjectFromSchema_body (schema : JSValue) : JSValue :=
  let result := [] in
  if negb (truthy (get_prop schema "properties")) then JObject result
  else
    JObject
      (fold_left
         (fun result (entry : string * JSValue) =>
            let (propName, propSchema) := entry in
            (* Use provided value if available *)
            if provided propName
            then assign propName (provided_value propName) result
            (* Otherwise generate a value based on the property schema *)
            else assign propName (generate propSchema) result)
         (Object_entries (get_prop schema "properties"))
         result).

(** [generateDataFromSchema(schema, paramValues)] *)
Definition generateDataFromSchema_body (schema : JSValue) : JSValue :=
  if negb (truthy schema) then JNull
  else
    match get_prop schema "type" with
    | JString ty =>
        (* Handle primitive types *)
        if ty =? "string" then
          js_or (js_or (get_prop schema "example") (get_prop schema "default"))
                (JString "test-string")
        else if (ty =? "number") || (ty =? "integer") then
          js_or (js_or (get_prop schema "example") (get_prop schema "default"))
                (JNumber 123)
        else if ty =? "boolean" then
          js_or (js_or (get_prop schema "example") (get_prop schema "default"))
                (JBool true)
        else if ty =? "array" then
          if truthy (get_prop schema "items")
          then JArray [generate (get_prop schema "items")]
          else JArray []
        else if ty =? "object" then
          generateObjectFromSchema_body schema
        else JNull
    | _ =>
        (* Handle $ref *)
        if truthy (get_prop schema "$ref") then JObject []
        (* Default to an empty object *)
        else JObject []
    end.
End Bodies.

(** One step of the [for ... of Object.entries(schema.properties)] loop. *)
Definition put_property (propName : string) (generated : JSValue)
           (result : list (string * JSValue)) : list (string * JSValue) :=
  if provided propName
  then assign propName (provided_value propName) result
  else assign propName generated result.

(** The function that ties the knot.  Recursion is structural: it descends
    into the value stored under [items], and into the entries of the value
    stored under [properties]; [generateDataFromSchema_eq] below shows that
    it satisfies the equations of the source bodies. *)
Fixpoint generateDataFromSchema (schema : JSValue) : JSValue :=
  let fix entries (es : list (string * JSValue)) result :=
    match es with
    | [] => result
    | (propName, propSchema) :: rest =>
        entries rest
                (put_property propName (generateDataFromSchema propSchema) result)
    end in
  let fix elements (i : nat) (xs : list JSValue) result :=
    match xs with
    | [] => result
    | x :: rest =>
        elements (S i) rest
                 (put_property (index_key i) (generateDataFromSchema x) result)
    end in
  let fix at_items (ps : list (string * JSValue)) :=
    match ps with
    | [] => JArray []
    | (k, v) :: rest =>
        if k =? "items"
        then if truthy v then JArray [generateDataFromSchema v] else JArray []
        else at_items rest
    end in
  let fix at_properties (ps : list (string * JSValue)) :=
    match ps with
    | [] => JObject []
    | (k, v) :: rest =>
        if k =? "properties" then
          match v with
          | JObject es => JObject (entries es [])
          | JArray xs => JObject (elements 0 xs [])
          | JString s =>
              if s =? EmptyString then JObject []
              else JObject (fold_left
                              (fun result (entry : string * JSValue) =>
                                 put_property (fst entry) (JObject []) result)
                              (indexed 0 (chars s)) [])
          | _ => JObject []
          end
        else at_properties rest
    end in
  match schema with
  | JObject props =>
      match get props "type" with
      | JString ty =>
          if ty =? "string" then
            js_or (js_or (get props "example") (get props "default"))
                  (JString "test-string")
          else if (ty =? "number") || (ty =? "integer") then
            js_or (js_or (get props "example") (get props "default"))
                  (JNumber 123)
          else if ty =? "boolean" then
            js_or (js_or (get props "example") (get props "default"))
                  (JBool true)
          else if ty =? "array" then at_items props
          else if ty =? "object" then at_properties props
          else JNull
      | _ => JObject []
      end
  | _ => if truthy schema then JObject [] else JNull
  end.

(** [generateObjectFromSchema(schema, paramValues)] *)
Definition generateObjectFromSchema (schema : JSValue) : JSValue :=
  generateObjectFromSchema_body generateDataFromSchema schema.

End WithParamValues.
End Generator.

(* ===================================================================== *)
(** ** The host platform *)
(* ===================================================================== *)

(** What [validate(data)] leaves behind: its boolean result and
    [validate.errors] ([None] is [null]). *)
Module ValidateResult.
Record t : Type := mk {
  passed : bool;
  errors : option (list JSValue)
}.
End ValidateResult.

(** The collaborators that are not code of this repository: the clock, the
    HTTP client, the URI encoder, the JSON printer and the schema compiler.
    [World] is whatever the network and the clock depend on.  The client and
    the schema compiler may throw; the encoder and the printer are total on
    the JSON-like values modelled here. *)
Class Host : Type := {
  World : Type;
  Date_now : World -> Z;
  axios : AxiosRequestConfig.t -> World -> Outcome AxiosResponse.t * World;
  encodeURIComponent : string -> string;
  JSON_stringify : JSValue -> string;
  Ajv_compile : JSValue -> Outcome (JSValue -> Outcome ValidateResult.t)
}.

(** Result objects live in a heap and are handed around by reference:
    [testApiEndpoints] pushes a result into [results] and may update it
    afterwards through the reference it still holds. *)
Module Store.
Record t {host : Host} : Type := mk {
  world : World;
  heap : list EndpointTestResult.t;
  results : list nat               (* the array [results], as references *)
}.
Arguments t : clear implicits.
End Store.

(** Computations that read and write the store and may throw. *)
Module Eff.
Section WithHost.
Context {host : Host}.

Definition M (A : Type) : Type := Store.t host -> Outcome A * Store.t host.

Definition ret {A : Type} (a : A) : M A := fun st => (Returns a, st).

Definition bind {A B : Type} (m : M A) (k : A -> M B) : M B :=
  fun st =>
    match m st with
    | (Returns a, st') => k a st'
    | (Throws error, st') => (Throws error, st')
    end.

(** [try { body } catch (error) { handler }] *)
Definition try_catch {A : Type} (body : M A) (handler : Thrown -> M A) : M A :=
  fun st =>
    match body st with
    | (Returns a, st') => (Returns a, st')
    | (Throws error, st') => handler error st'
    end.

(** [Date.now()] *)
Definition now : M Z := fun st => (Returns (Date_now (Store.world st)), st).

(** [await axios(axiosConfig)] *)
Definition request (axiosConfig : AxiosRequestConfig.t) : M AxiosResponse.t :=
  fun st =>
    let (outcome, w) := axios axiosConfig (Store.world st) in
    (outcome, Store.mk host w (Store.heap st) (Store.results st)).

(** An object literal: a fresh object, returned by reference. *)
Definition new_object (o : EndpointTestResult.t) : M nat :=
  fun st =>
    (Returns (List.length (Store.heap st)),
     Store.mk host (Store.world st) (Store.heap st ++ [o]) (Store.results st)).

(** Reading the object behind a reference (a reference to nothing would be
    a [TypeError]; references come from [new_object] only). *)
Definition read (ref : nat) : M EndpointTestResult.t :=
  fun st =>
    match nth_error (Store.heap st) ref with
    | Some o => (Returns o, st)
    | None => (Throws (ErrorInstance "Cannot read properties of undefined"), st)
    end.

Fixpoint update_nth {A : Type} (n : nat) (f : A -> A) (xs : list A) : list A :=
  match xs, n with
  | [], _ => []
  | x :: rest, O => f x :: rest
  | x :: rest, S n' => x :: update_nth n' f rest
  end.

(** Assigning to fields of the object behind a reference. *)
Definition modify (ref : nat) (f : EndpointTestResult.t -> EndpointTestResult.t)
  : M unit :=
  fun st =>
    match nth_error (Store.heap st) ref with
    | Some _ =>
        (Returns tt,
         Store.mk host (Store.world st) (update_nth ref f (Store.heap st))
                  (Store.results st))
    | None => (Throws (ErrorInstance "Cannot set properties of undefined"), st)
    end.

(** [const results = []] and [results.push(ref)] *)
Definition results_new : M unit :=
  fun st => (Returns tt, Store.mk host (Store.world st) (Store.heap st) []).

Definition results_push (ref : nat) : M unit :=
  fun st =>
    (Returns tt,
     Store.mk host (Store.world st) (Store.heap st) (Store.results st ++ [ref])).

Definition results_get : M (list nat) := fun st => (Returns (Store.results st), st).

(** [for (const x of xs) { body }] *)
Fixpoint for_of {A : Type} (xs : list A) (body : A -> M unit) : M unit :=
  match xs with
  | [] => ret tt
  | x :: rest => bind (body x) (fun _ => for_of rest body)
  end.

End WithHost.
End Eff.

Declare Scope eff_scope.
Delimit Scope eff_scope with eff.
Notation "x <- m ;; k" := (Eff.bind m (fun x => k))
  (at level 61, m at next level, right associativity) : eff_scope.
Notation "m ;; k" := (Eff.bind m (fun _ => k))
  (at level 61, right associativity) : eff_scope.

(* ===================================================================== *)
(** ** testers/endpoint: request synthesis and execution *)
(* ===================================================================== *)

Module Endpoint.
Import Generator.
Section WithHost.
Context {host : Host}.

(** [getParameterValue(param, config)] *)
Definition getParameterValue (param : Param.t) (config : TestConfig.t) : JSValue :=
  (* Check if a value is provided in the config *)
  if provided (TestConfig.paramValues config) (Param.name param)
  then provided_value (TestConfig.paramValues config) (Param.name param)
  else
    (* Generate a test value based on the parameter type *)
    let ty := Param.type param in
    if ty =? "string" then
      js_or (Param.example param) (JString ("test-" ++ Param.name param))
    else if (ty =? "number") || (ty =? "integer") then
      js_or (Param.example param) (JNumber 123)
    else if ty =? "boolean" then
      js_or (Param.example param) (JBool true)
    else if ty =? "array" then
      js_or (Param.example param) (JArray [])
    else if ty =? "object" then
      js_or (Param.example param) (JObject [])
    else
      js_or (Param.example param) (JString ("test-" ++ Param.name param)).

(** [endpoint.parameters.filter(p => p.in === place)] *)
Definition parameters_in (place : Location) (endpoint : ApiEndpoint.t)
  : list Param.t :=
  filter (fun p => Location_eqb (Param.location p) place)
         (ApiEndpoint.parameters endpoint).

(** [buildUrl(endpoint, config)] *)
Definition buildUrl (endpoint : ApiEndpoint.t) (config : TestConfig.t) : string :=
  (* Replace path parameters *)
  let pathParams := parameters_in InPath endpoint in
  let path :=
    fold_left
      (fun path param =>
         let value := getParameterValue param config in
         replace (":" ++ Param.name param)
                 (encodeURIComponent (ToString value)) path)
      pathParams (ApiEndpoint.path endpoint) in
  (* Add query parameters *)
  let queryParams := parameters_in InQuery endpoint in
  let path :=
    if (0 <? List.length queryParams)%nat then
      let queryString :=
        join "&"
             (map (fun param =>
                     let value := getParameterValue param config in
                     Param.name param ++ "=" ++ encodeURIComponent (ToString value))
                  queryParams) in
      path ++ (if includes "?" path then "&" ++ queryString else "?" ++ queryString)
    else path in
  (* Join base URL and path *)
  let baseUrl := TestConfig.baseUrl config in
  let baseUrl :=
    if endsWith "/" baseUrl && startsWith "/" path
    then substring 0 (String.length baseUrl - 1) baseUrl
    else baseUrl in
  baseUrl ++ path.

(** [buildHeaders(endpoint, config)] *)
Definition buildHeaders (endpoint : ApiEndpoint.t) (config : TestConfig.t)
  : list (string * string) :=
  let headers := [("Content-Type", "application/json")] in
  let headers :=
    match TestConfig.headers config with
    | Some extra =>
        (* ...config.headers *)
        fold_left (fun headers (kv : string * string) =>
                     define (fst kv) (snd kv) headers) extra headers
    | None => headers
    end in
  (* Add header parameters from endpoint *)
  let headerParams := parameters_in InHeader endpoint in
  fold_left
    (fun headers param =>
       let value := getParameterValue param config in
       assign (Param.name param) (ToString value) headers)
    headerParams headers.

(** [buildRequestBody(endpoint, config)] *)
Definition buildRequestBody (endpoint : ApiEndpoint.t) (config : TestConfig.t)
  : JSValue :=
  let bodyParams := parameters_in InBody endpoint in
  match bodyParams with
  | [] => JNull
  | first :: _ =>
      (* If there's a schema, use it as a template for the body *)
      if truthy (Param.schema first)
      then generateDataFromSchema (TestConfig.paramValues config) (Param.schema first)
      else
        (* Otherwise, build a simple object with parameter values *)
        JObject
          (fold_left
             (fun body param =>
                let value := getParameterValue param config in
                assign (Param.name param) value body)
             bodyParams [])
  end.

(** [['post', 'put', 'patch'].includes(endpoint.method.toLowerCase())] *)
Definition carries_body (endpoint : ApiEndpoint.t) : bool :=
  existsb (String.eqb (toLowerCase (method_name (ApiEndpoint.method endpoint))))
          ["post"; "put"; "patch"].

(** The request [testEndpoint] builds before it calls the client
    (lines 41-55 of the source). *)
Definition axiosConfig (endpoint : ApiEndpoint.t) (config : TestConfig.t)
  : AxiosRequestConfig.t :=
  let url := buildUrl endpoint config in
  let headers := buildHeaders endpoint config in
  let data := buildRequestBody endpoint config in
  let timeout :=
    match TestConfig.timeout config with
    | Some ms => if (ms =? 0)%Z then 5000%Z else ms
    | None => 5000%Z
    end in
  AxiosRequestConfig.mk
    (toLowerCase (method_name (ApiEndpoint.method endpoint)))
    url headers timeout
    (if truthy data && carries_body endpoint then data else JUndefined).

(** [endpoint.responses.filter(r => r.statusCode >= 200 && r.statusCode < 300)
      .map(r => r.statusCode)] *)
Definition expectedSuccessStatus (endpoint : ApiEndpoint.t) : list Z :=
  map Response.statusCode
      (filter (fun r => (200 <=? Response.statusCode r)%Z
                        && (Response.statusCode r <? 300)%Z)
              (ApiEndpoint.responses endpoint)).

(** If no specific success status codes are defined, use 200 as default. *)
Definition successStatusCodes (endpoint : ApiEndpoint.t) : list Z :=
  if (0 <? List.length (expectedSuccessStatus endpoint))%nat
  then expectedSuccessStatus endpoint
  else [200%Z].

(** [`Expected status ${successStatusCodes.join(' or ')}, got ${status}`] *)
Definition status_mismatch (codes : list Z) (status : Z) : string :=
  "Expected status " ++ join " or " (map string_of_Z codes)
    ++ ", got " ++ string_of_Z status.

Import Eff.
Local Open Scope eff_scope.

(** [testEndpoint(endpoint, config)]; the returned reference designates
    the result object. *)
Definition testEndpoint (endpoint : ApiEndpoint.t) (config : TestConfig.t) : M nat :=
  try_catch
    (let axiosConfig := axiosConfig endpoint config in
     startTime <- now ;;
     response <- request axiosConfig ;;
     endTime <- now ;;
     let responseTime := (endTime - startTime)%Z in
     let successStatusCodes := successStatusCodes endpoint in
     let success :=
       existsb (Z.eqb (AxiosResponse.status response)) successStatusCodes in
     result <- new_object
                 (EndpointTestResult.mk endpoint success
                    (Some (AxiosResponse.status response)) (Some responseTime)
                    None (AxiosResponse.data response)) ;;
     (if negb success
      then modify result
             (fun r =>
                EndpointTestResult.mk
                  (EndpointTestResult.endpoint r) (EndpointTestResult.success r)
                  (EndpointTestResult.statusCode r)
                  (EndpointTestResult.responseTime r)
                  (Some (status_mismatch successStatusCodes
                                         (AxiosResponse.status response)))
                  (EndpointTestResult.responseBody r))
      else ret tt) ;;
     ret result)
    (fun error =>
       new_object
         (EndpointTestResult.mk endpoint false None None
                                (Some (error_message error)) JUndefined)).

End WithHost.
End Endpoint.

(* ===================================================================== *)
(** ** testers/schema: response and parameter validation *)
(* ===================================================================== *)

Module SchemaValidationResult.
Record t : Type := mk {
  endpoint : ApiEndpoint.t;
  valid : bool;
  errors : option (list JSValue)
}.
End SchemaValidationResult.

Module Schema.
Section WithHost.
Context {host : Host}.

(** The object literal [{ message: text }] *)
Definition violation (text : string) : JSValue :=
  JObject [("message", JString text)].

(** [validateResponseSchema(endpoint, statusCode, responseBody)] *)
Definition validateResponseSchema
           (endpoint : ApiEndpoint.t) (statusCode : Z) (responseBody : JSValue)
  : SchemaValidationResult.t :=
  (* Find the response definition for this status code *)
  let responseDefinition :=
    find (fun r => (Response.statusCode r =? statusCode)%Z)
         (ApiEndpoint.responses endpoint) in
  let on_error (error : Thrown) :=
    SchemaValidationResult.mk endpoint false
      (Some [violation (error_message error)]) in
  match responseDefinition with
  | None => SchemaValidationResult.mk endpoint true None
  | Some definition =>
      if negb (truthy (Response.schema definition))
      then SchemaValidationResult.mk endpoint true None
      else
        match Ajv_compile (Response.schema definition) with
        | Throws error => on_error error
        | Returns validate =>
            match validate responseBody with
            | Throws error => on_error error
            | Returns outcome =>
                if negb (ValidateResult.passed outcome)
                then SchemaValidationResult.mk endpoint false
                       (Some (match ValidateResult.errors outcome with
                              | Some errors => errors
                              | None => [violation "Unknown validation error"]
                              end))
                else SchemaValidationResult.mk endpoint true None
            end
        end
  end.

(** [xs.forEach(x => { ... out.push(e) ... })] where each turn pushes at
    most one element. *)
Definition forEach_push {A B : Type} (step : A -> option B) (xs : list A)
  : list B :=
  fold_left (fun (out : list B) x => match step x with
                          | Some e => (out ++ [e])%list
                          | None => out
                          end) xs [].

(** The type check of one declared parameter against the supplied values. *)
Definition type_error (params : list (string * JSValue)) (param : Param.t)
  : option JSValue :=
  let name := Param.name param in
  let ty := Param.type param in
  if is_defined (get params name) then
    let value := get params name in
    let complain (expected : string) :=
      Some (violation ("Parameter " ++ name ++ " should be " ++ expected
                         ++ ", got " ++ typeof value)) in
    if (ty =? "number") || (ty =? "integer") then
      if negb (typeof value =? "number") then complain "a number" else None
    else if ty =? "boolean" then
      if negb (typeof value =? "boolean") then complain "a boolean" else None
    else if ty =? "string" then
      if negb (typeof value =? "string") then complain "a string" else None
    else if ty =? "array" then
      if negb (Array_isArray value) then complain "an array" else None
    else if ty =? "object" then
      if negb (typeof value =? "object") || is_null value || Array_isArray value
      then complain "an object" else None
    else None
  else None.

(** [validateRequestParams(endpoint, params)] *)
Definition validateRequestParams
           (endpoint : ApiEndpoint.t) (params : list (string * JSValue))
  : SchemaValidationResult.t :=
  (* Check required parameters *)
  let missingParams :=
    forEach_push
      (fun param =>
         if is_defined (get params (Param.name param)) then None
         else Some (Param.name param))
      (filter Param.required (ApiEndpoint.parameters endpoint)) in
  if (0 <? List.length missingParams)%nat then
    SchemaValidationResult.mk endpoint false
      (Some (map (fun name => violation ("Missing required parameter: " ++ name))
                 missingParams))
  else
    (* Validate parameter types *)
    let typeErrors :=
      forEach_push (type_error params) (ApiEndpoint.parameters endpoint) in
    if (0 <? List.length typeErrors)%nat then
      SchemaValidationResult.mk endpoint false (Some typeErrors)
    else
      SchemaValidationResult.mk endpoint true None.

End WithHost.
End Schema.

(* ===================================================================== *)
(** ** testers/index: the orchestrator *)
(* ===================================================================== *)

Module Testers.
Import Eff.
Section WithHost.
Context {host : Host}.
Local Open Scope eff_scope.

(** [result.success = false; result.error = text] *)
Definition fail_with (text : string) (r : EndpointTestResult.t)
  : EndpointTestResult.t :=
  EndpointTestResult.mk
    (EndpointTestResult.endpoint r) false
    (EndpointTestResult.statusCode r) (EndpointTestResult.responseTime r)
    (Some text) (EndpointTestResult.responseBody r).

(** [validateResponseSchema(endpoint, result.statusCode, result.responseBody)]
    as the orchestrator calls it: a result without a status code matches
    no declared response, which validates. *)
Definition schemaResult_for (endpoint : ApiEndpoint.t) (r : EndpointTestResult.t)
  : SchemaValidationResult.t :=
  match EndpointTestResult.statusCode r with
  | Some statusCode =>
      Schema.validateResponseSchema endpoint statusCode
                                    (EndpointTestResult.responseBody r)
  | None => SchemaValidationResult.mk endpoint true None
  end.

(** [`Schema validation failed: ${JSON.stringify(schemaResult.errors)}`] *)
Definition schema_failure (schemaResult : SchemaValidationResult.t) : string :=
  "Schema validation failed: " ++
    match SchemaValidationResult.errors schemaResult with
    | Some errors => JSON_stringify (JArray errors)
    | None => "undefined"
    end.

(** [config.validateSchema], as a condition *)
Definition validateSchema_enabled (config : TestConfig.t) : bool :=
  match TestConfig.validateSchema config with
  | Some b => b
  | None => false
  end.

(** The body of the loop over [endpoints]. *)
Definition test_one (config : TestConfig.t) (endpoint : ApiEndpoint.t) : M unit :=
  try_catch
    (result <- Endpoint.testEndpoint endpoint config ;;
     results_push result ;;
     (* Validate schema if enabled and test was successful *)
     r <- read result ;;
     if validateSchema_enabled config
        && EndpointTestResult.success r
        && truthy (EndpointTestResult.responseBody r)
     then
       let schemaResult := schemaResult_for endpoint r in
       if negb (SchemaValidationResult.valid schemaResult)
       then modify result (fail_with (schema_failure schemaResult))
       else ret tt
     else ret tt)
    (fun error =>
       failed <- new_object
                   (EndpointTestResult.mk endpoint false None None
                                          (Some (error_message error)) JUndefined) ;;
       results_push failed).

(** [testApiEndpoints(endpoints, config)]: the array it returns, as
    references into the heap. *)
Definition testApiEndpoints (endpoints : list ApiEndpoint.t) (config : TestConfig.t)
  : M (list nat) :=
  results_new ;;
  for_of endpoints (test_one config) ;;
  results_get.

(** The objects a list of references designates. *)
Fixpoint deref_all (heap : list EndpointTestResult.t) (refs : list nat)
  : option (list EndpointTestResult.t) :=
  match refs with
  | [] => Some []
  | ref :: rest =>
      match nth_error heap ref, deref_all heap rest with
      | Some o, Some os => Some (o :: os)
      | _, _ => None
      end
  end.

(** The test report a caller of [testApiEndpoints] observes when the run
    starts in world [w] with nothing allocated: the results behind the
    returned array, or [None] if the call throws. *)
Definition report (endpoints : list ApiEndpoint.t) (config : TestConfig.t)
           (w : World) : option (list EndpointTestResult.t) :=
  match testApiEndpoints endpoints config (Store.mk host w [] []) with
  | (Returns refs, st) => deref_all (Store.heap st) refs
  | (Throws _, _) => None
  end.

End WithHost.
End Testers.

(* ===================================================================== *)
(** ** The reading of the specification used for comparison *)
(* ===================================================================== *)

Module Spec.
Import Parser.

(** A named segment of a path, in one of the two notations. *)
Inductive Notation : Type := Colon | Brace.

(** The leftmost named segment of either notation, with the text after it. *)
Fixpoint next_segment (s : string) : option ((Notation * string) * string) :=
  match s with
  | EmptyString => None
  | String c rest =>
      if (c =? ":")%char then
        match take_word rest with
        | (EmptyString, _) => next_segment rest
        | (w, after) => Some ((Colon, w), after)
        end
      else if (c =? "{")%char then
        match take_word rest with
        | (String a w, String d after) =>
            if (d =? "}")%char then Some ((Brace, String a w), after)
            else next_segment rest
        | _ => next_segment rest
        end
      else next_segment rest
  end.

Lemma next_segment_shrinks s o after :
  next_segment s = Some (o, after) -> String.length after < String.length s.
Proof.
  induction s as [|c s IH]; simpl; [discriminate|].
  pose proof (take_word_length s) as L.
  destruct (c =? ":")%char.
  - destruct (take_word s) as [[|a u] r]; simpl in L.
    + intros H. apply IH in H. lia.
    + intros H. inversion H; subst. lia.
  - destruct (c =? "{")%char; [|intros H; apply IH in H; lia].
    destruct (take_word s) as [[|a u] [|d r]]; simpl in L;
      try (intros H; apply IH in H; lia).
    destruct (d =? "}")%char; intros H.
    + inversion H; subst. lia.
    + apply IH in H. lia.
Qed.

(** Every named segment of the path, in left-to-right order of occurrence. *)
Equations occurrences (s : string) : list (Notation * string)
  by wf (String.length s) lt :=
  occurrences s with inspect (next_segment s) := {
    | exist _ (Some (o, after)) E => o :: occurrences after
    | exist _ None _ => []
  }.
Next Obligation.
  eapply next_segment_shrinks; eassumption.
Qed.

(** [extractParameters] as the specification words it: the parameter names
    in left-to-right order of their occurrence in the path. *)
Definition extractParameters_in_order (path : string) : list string :=
  map snd (occurrences path).

Definition is_colon (o : Notation * string) : bool :=
  match fst o with Colon => true | Brace => false end.

Definition is_brace (o : Notation * string) : bool :=
  match fst o with Colon => false | Brace => true end.

End Spec.

(* ===================================================================== *)
(** ** analyzers: path normalisation *)
(* ===================================================================== *)

Module Analyzers.

(** [s.replace(/\/+/g, '/')]: every maximal run of slashes becomes a single
    slash (of a run, all slashes but the last are dropped). *)
Fixpoint collapse_slashes (s : string) : string :=
  match s with
  | EmptyString => EmptyString
  | String c rest =>
      if (c =? "/")%char && startsWith "/" rest
      then collapse_slashes rest
      else String c (collapse_slashes rest)
  end.

(** [s.replace(/\/$/, '')]: a slash at the very end of the text is removed. *)
Fixpoint strip_trailing_slash (s : string) : string :=
  match s with
  | EmptyString => EmptyString
  | String c EmptyString => if (c =? "/")%char then EmptyString else s
  | String c rest => String c (strip_trailing_slash rest)
  end.

(** analyzers/express *)
Module Express.

(** [normalizePath(path)] *)
Definition normalizePath (path : string) : string := collapse_slashes path.

(** [normalizePath(`${basePath}${routePath}`)], the path of a route of a
    nested router. *)
Definition fullPath (basePath routePath : string) : string :=
  normalizePath (basePath ++ routePath).

End Express.

(** analyzers/nest *)
Module Nest.

(** [normalizePath(path)] *)
Definition normalizePath (path : string) : string :=
  strip_trailing_slash (collapse_slashes path).

(** [normalizePath(`/${controllerPath}/${routePath}`)], the path of a route
    handler of a controller. *)
Definition fullPath (controllerPath routePath : string) : string :=
  normalizePath ("/" ++ controllerPath ++ "/" ++ routePath).

End Nest.

End Analyzers.

(* ===================================================================== *)
(** ** utils/logger: the console logger *)
(* ===================================================================== *)

Module Logger.

Inductive LogLevel : Type := ERROR | WARN | INFO | DEBUG.

(** The numeric value of a [LogLevel] member. *)
Definition level_value (l : LogLevel) : Z :=
  match l with ERROR => 0 | WARN => 1 | INFO => 2 | DEBUG => 3 end.

(** The console method a line is written with. *)
Inductive Channel : Type :=
  console_error | console_warn | console_info | console_debug.

(** One call of a console method: the formatted first argument and the
    additional arguments. *)
Record Line : Type := mk_line {
  channel : Channel;
  text : string;
  args : list JSValue
}.

Record ConsoleLogger : Type := mk { level : LogLevel }.

(** [new ConsoleLogger()] *)
Definition create : ConsoleLogger := mk INFO.

(** [setLevel(level)] *)
Definition setLevel (level : LogLevel) (this : ConsoleLogger) : ConsoleLogger :=
  mk level.

(** [error(message, ...args)]: what is written to the console, if anything. *)
Definition error (this : ConsoleLogger) (message : string) (args : list JSValue)
  : option Line :=
  if (level_value (level this) >=? level_value ERROR)%Z
  then Some (mk_line console_error ("[ERROR] " ++ message) args)
  else None.

(** [warn(message, ...args)] *)
Definition warn (this : ConsoleLogger) (message : string) (args : list JSValue)
  : option Line :=
  if (level_value (level this) >=? level_value WARN)%Z
  then Some (mk_line console_warn ("[WARN] " ++ message) args)
  else None.

(** [info(message, ...args)] *)
Definition info (this : ConsoleLogger) (message : string) (args : list JSValue)
  : option Line :=
  if (level_value (level this) >=? level_value INFO)%Z
  then Some (mk_line console_info ("[INFO] " ++ message) args)
  else None.

(** [debug(message, ...args)] *)
Definition debug (this : ConsoleLogger) (message : string) (args : list JSValue)
  : option Line :=
  if (level_value (level this) >=? level_value DEBUG)%Z
  then Some (mk_line console_debug ("[DEBUG] " ++ message) args)
  else None.

End Logger.

(* ===================================================================== *)
(** ** generators/swagger: operation ids and content types *)
(* ===================================================================== *)

Module SwaggerGenerator.

(** [s.replace(/^\//, '')] *)
Definition strip_leading_slash (s : string) : string :=
  match s with
  | String c rest => if (c =? "/")%char then rest else s
  | EmptyString => EmptyString
  end.

(** [s.replace(/c/g, d)] for a single character [c] and a one-character
    replacement [d]. *)
Fixpoint replace_char (c d : ascii) (s : string) : string :=
  match s with
  | EmptyString => EmptyString
  | String a rest =>
      String (if (a =? c)%char then d else a) (replace_char c d rest)
  end.

(** [s.replace(/.../g, '')] for a pattern that matches single characters. *)
Fixpoint remove_chars (matches : ascii -> bool) (s : string) : string :=
  match s with
  | EmptyString => EmptyString
  | String a rest =>
      if matches a then remove_chars matches rest
      else String a (remove_chars matches rest)
  end.

(** [generateOperationId(endpoint)], which reads [endpoint.method] and
    [endpoint.path].  At run time the method is the string an analyzer took
    from the route table of the framework and upper-cased
    ([toUpperCase() as HttpMethod], an unchecked cast), so it is any string
    here. *)
Definition generateOperationId (method path : string) : string :=
  let method := toLowerCase method in
  let path :=
    remove_chars (fun a => (a =? "{")%char || (a =? "}")%char)
      (replace_char "-" "_"
         (remove_chars (fun a => (a =? ":")%char)
            (replace_char "/" "_"
               (strip_leading_slash path)))) in
  method ++ "_" ++ path.

(** [set.add(x)] on a [Set<string>], kept in insertion order. *)
Definition Set_add (x : string) (set : list string) : list string :=
  if existsb (String.eqb x) set then set else (set ++ [x])%list.

(** [getProducesFromResponses(responses)] *)
Definition getProducesFromResponses (responses : list Response.t) : list string :=
  let produces :=
    fold_left
      (fun produces response =>
         match Response.format response with
         | JSON => Set_add "application/json" produces
         | XML => Set_add "application/xml" produces
         | TEXT => Set_add "text/plain" produces
         | HTML => Set_add "text/html" produces
         | _ => Set_add "application/json" produces
         end)
      responses [] in
  (* Array.from(produces) *)
  produces.

End SwaggerGenerator.

(* ===================================================================== *)
(** ** Vocabulary of the statements, and hosts and endpoints for examples *)
(* ===================================================================== *)

Definition colon_names (os : list (Spec.Notation * string)) : list string :=
  map snd (filter Spec.is_colon os).

Definition brace_names (os : list (Spec.Notation * string)) : list string :=
  map snd (filter Spec.is_brace os).

(** The six type tags the generator recognises. *)
Definition recognised_type (ty : string) : bool :=
  existsb (String.eqb ty)
          ["string"; "number"; "integer"; "boolean"; "array"; "object"].

(** The fixed literal of a scalar type tag. *)
Definition scalar_literal (ty : string) : option JSValue :=
  if ty =? "string" then Some (JString "test-string")
  else if (ty =? "number") || (ty =? "integer") then Some (JNumber 123)
  else if ty =? "boolean" then Some (JBool true)
  else None.

(** A parameter with only the fields that matter for value synthesis. *)
Definition plain_param (name type : string) (location : Location)
           (default example schema : JSValue) : Param.t :=
  Param.mk name type false location None default example None None schema.

Definition plain_config (paramValues : option (list (string * JSValue)))
  : TestConfig.t :=
  TestConfig.mk "http://localhost:3000" None None None paramValues.

(** An endpoint with only the fields that matter for request synthesis. *)
Definition plain_endpoint (path : string) (method : HttpMethod)
           (parameters : list Param.t) (responses : list Response.t)
  : ApiEndpoint.t :=
  ApiEndpoint.mk path method parameters responses
                 EmptyString EmptyString [] false.

Definition required_param (name type : string) : Param.t :=
  Param.mk name type true InQuery None JUndefined JUndefined None None JUndefined.

(** A host for examples: a server that answers every request with the given
    status and body, a clock that stands still, and a schema compiler whose
    validators reject every value. *)
Definition fixed_host (status : Z) (body : JSValue) : Host :=
  {| World := unit;
     Date_now := fun _ => 0%Z;
     axios := fun _ w => (Returns (AxiosResponse.mk status body), w);
     encodeURIComponent := fun s => s;
     JSON_stringify := ToString;
     Ajv_compile := fun _ =>
       Returns (fun _ => Returns (ValidateResult.mk false
                  (Some [JObject [("message", JString "must be object")]]))) |}.

(** A host whose schema compiler rejects every schema as malformed. *)
Definition strict_host : Host :=
  {| World := unit;
     Date_now := fun _ => 0%Z;
     axios := fun _ w => (Returns (AxiosResponse.mk 200 JNull), w);
     encodeURIComponent := fun s => s;
     JSON_stringify := ToString;
     Ajv_compile := fun _ =>
       Throws (ErrorInstance "schema is invalid: data/type must be string") |}.


(** A required parameter whose name reads as [undefined] in the supplied
    values. *)
Definition is_missing (params : list (string * JSValue)) (p : Param.t) : bool :=
  Param.required p && negb (is_defined (get params (Param.name p))).

(** Whether a runtime value has the declared type; a declared type outside
    the five checked ones accepts every value. *)
Definition has_type (ty : string) (value : JSValue) : bool :=
  if (ty =? "number") || (ty =? "integer") then
    match value with JNumber _ => true | _ => false end
  else if ty =? "boolean" then
    match value with JBool _ => true | _ => false end
  else if ty =? "string" then
    match value with JString _ => true | _ => false end
  else if ty =? "array" then
    match value with JArray _ => true | _ => false end
  else if ty =? "object" then
    match value with JObject _ => true | _ => false end
  else true.

(** A declared parameter whose name reads as a value of the wrong runtime
    type in the supplied values. *)
Definition is_mismatch (params : list (string * JSValue)) (p : Param.t) : bool :=
  is_defined (get params (Param.name p))
  && negb (has_type (Param.type p) (get params (Param.name p))).

Definition expected_text (ty : string) : string :=
  if (ty =? "number") || (ty =? "integer") then "a number"
  else if ty =? "boolean" then "a boolean"
  else if ty =? "string" then "a string"
  else if ty =? "array" then "an array"
  else "an object".

Definition missing_violation (p : Param.t) : JSValue :=
  JObject [("message", JString ("Missing required parameter: " ++ Param.name p))].

Definition mismatch_violation (params : list (string * JSValue)) (p : Param.t)
  : JSValue :=
  JObject [("message",
            JString ("Parameter " ++ Param.name p ++ " should be "
                       ++ expected_text (Param.type p) ++ ", got "
                       ++ typeof (get params (Param.name p))))].

(** Whether the order in which an object lists its keys allows [k] before
    [k']: array indices come in ascending order, and before other keys. *)
Definition lists_before (k k' : string) : bool :=
  match array_index k, array_index k' with
  | Some i, Some j => (i <? j)%N
  | Some _, None => true
  | None, Some _ => false
  | None, None => true
  end.

(** A list of keys in the order in which an object lists its keys. *)
Fixpoint own_key_order (ks : list string) : bool :=
  match ks with
  | [] => true
  | k :: rest => forallb (lists_before k) rest && own_key_order rest
  end.

(** A name other than [__proto__]. *)
Definition named (k : string) : bool := negb (k =? "__proto__").

(** The override a configuration holds for a name: the entry of that name
    in [paramValues], when there is one and its value is not [undefined]. *)
Definition override (paramValues : option (list (string * JSValue)))
           (name : string) : option JSValue :=
  match paramValues with
  | Some values =>
      match lookup name values with
      | Some v => if is_defined v then Some v else None
      | None => None
      end
  | None => None
  end.

(** What a value owns under a name: the property of that name of an
    object, when it has one of its own. *)
Definition own_property (v : JSValue) (k : string) : option JSValue :=
  match v with
  | JObject props => lookup k props
  | _ => None
  end.

(** [c] occurs in [s]. *)
Fixpoint mem_char (c : ascii) (s : string) : bool :=
  match s with
  | EmptyString => false
  | String a rest => (a =? c)%char || mem_char c rest
  end.

(** The logger method of a severity. *)
Definition log_at (severity : Logger.LogLevel)
  : Logger.ConsoleLogger -> string -> list JSValue -> option Logger.Line :=
  match severity with
  | Logger.ERROR => Logger.error
  | Logger.WARN => Logger.warn
  | Logger.INFO => Logger.info
  | Logger.DEBUG => Logger.debug
  end.

(** The content type the Swagger generator lists for a response format
    (binary responses fall into the default arm). *)
Definition content_type (format : ResponseFormat) : string :=
  match format with
  | JSON | BINARY => "application/json"
  | XML => "application/xml"
  | TEXT => "text/plain"
  | HTML => "text/html"
  end.

(** Every character of [s] is in [[a-zA-Z0-9_]]. *)
Fixpoint all_word (s : string) : bool :=
  match s with
  | EmptyString => true
  | String c rest => Parser.word_char c && all_word rest
  end.

(** The text of a named segment in the notation an expression recognises. *)
Definition placeholder (re : Parser.Regex) (name : string) : string :=
  match re with
  | Parser.ColonParam => ":" ++ name
  | Parser.BraceParam => "{" ++ name ++ "}"
  end.


(** The configuration with another base URL. *)
Definition with_baseUrl (config : TestConfig.t) (baseUrl : string) : TestConfig.t :=
  TestConfig.mk baseUrl (TestConfig.headers config) (TestConfig.timeout config)
                (TestConfig.validateSchema config) (TestConfig.paramValues config).


(** A host whose schema compiler accepts every schema and whose validators
    answer with the given verdict. *)
Definition verdict_host (verdict : Outcome ValidateResult.t) : Host :=
  {| World := unit;
     Date_now := fun _ => 0%Z;
     axios := fun _ w => (Returns (AxiosResponse.mk 200 JNull), w);
     encodeURIComponent := fun s => s;
     JSON_stringify := ToString;
     Ajv_compile := fun _ => Returns (fun _ => verdict) |}.

(** The supplied values made of the synthesized value of every declared
    parameter. *)
Definition synthesized_params (endpoint : ApiEndpoint.t) (config : TestConfig.t)
  : list (string * JSValue) :=
  map (fun p => (Param.name p, Endpoint.getParameterValue p config))
      (ApiEndpoint.parameters endpoint).

Section ResultsOfARun.
Context {host : Host}.
Import Endpoint Testers.

(** The result object [testEndpoint] leaves behind, given the clock readings
    around the call and what the client did. *)
Definition raw_result (endpoint : ApiEndpoint.t) (startTime endTime : Z)
           (outcome : Outcome AxiosResponse.t) : EndpointTestResult.t :=
  match outcome with
  | Returns response =>
      let status := AxiosResponse.status response in
      let codes := successStatusCodes endpoint in
      let success := existsb (Z.eqb status) codes in
      EndpointTestResult.mk endpoint success (Some status)
        (Some (endTime - startTime)%Z)
        (if success then None else Some (status_mismatch codes status))
        (AxiosResponse.data response)
  | Throws error =>
      EndpointTestResult.mk endpoint false None None
                            (Some (error_message error)) JUndefined
  end.

(** What the schema step of the orchestrator makes of a result. *)
Definition checked (config : TestConfig.t) (endpoint : ApiEndpoint.t)
           (r : EndpointTestResult.t) : EndpointTestResult.t :=
  if validateSchema_enabled config
     && EndpointTestResult.success r
     && truthy (EndpointTestResult.responseBody r)
  then
    if negb (SchemaValidationResult.valid (schemaResult_for endpoint r))
    then fail_with (schema_failure (schemaResult_for endpoint r)) r
    else r
  else r.

(** A result that one turn of the loop can produce for [endpoint]. *)
Definition produced (config : TestConfig.t) (endpoint : ApiEndpoint.t)
           (r : EndpointTestResult.t) : Prop :=
  exists startTime endTime outcome,
    r = checked config endpoint (raw_result endpoint startTime endTime outcome).



End ResultsOfARun.

(* ===================================================================== *)
(** ** Properties of parseRouteParams *)
(* ===================================================================== *)

Section ParserFacts.
Import Parser Spec.

Lemma exec_loop_eq re s :
  exec_loop re s =
  match exec re s with
  | Some (w, after) => w :: exec_loop re after
  | None => []
  end.
Proof.
  simp exec_loop.
  generalize (inspect (exec re s)).
  intros [[[w a]|] E]; simpl; rewrite E; reflexivity.
Qed.

Lemma occurrences_eq s :
  occurrences s =
  match next_segment s with
  | Some (o, after) => o :: occurrences after
  | None => []
  end.
Proof.
  simp occurrences.
  generalize (inspect (next_segment s)).
  intros [[[o a]|] E]; simpl; rewrite E; reflexivity.
Qed.

Lemma exec_loop_ext re s s' :
  exec re s = exec re s' -> exec_loop re s = exec_loop re s'.
Proof.
  intros H. rewrite (exec_loop_eq re s), (exec_loop_eq re s'), H. reflexivity.
Qed.

Lemma occurrences_ext s s' :
  next_segment s = next_segment s' -> occurrences s = occurrences s'.
Proof.
  intros H. rewrite (occurrences_eq s), (occurrences_eq s'), H. reflexivity.
Qed.

Lemma word_char_not_colon c : word_char c = true -> (c =? ":")%char = false.
Proof.
  intros H. destruct (c =? ":")%char eqn:E; [|reflexivity].
  apply Ascii.eqb_eq in E. subst c. discriminate H.
Qed.

Lemma word_char_not_brace c : word_char c = true -> (c =? "{")%char = false.
Proof.
  intros H. destruct (c =? "{")%char eqn:E; [|reflexivity].
  apply Ascii.eqb_eq in E. subst c. discriminate H.
Qed.

(** Neither expression can start a match inside a run of word characters. *)
Lemma exec_skips_word re s : exec re s = exec re (snd (take_word s)).
Proof.
  induction s as [|c s IH]; [reflexivity|].
  cbn [take_word]. destruct (word_char c) eqn:W; [|reflexivity].
  destruct (take_word s) as [w r] eqn:T. cbn [snd] in *.
  rewrite <- IH. cbn [exec].
  rewrite (word_char_not_colon c W), (word_char_not_brace c W).
  destruct re; reflexivity.
Qed.

Lemma exec_skips_char re c s :
  (c =? ":")%char = false -> (c =? "{")%char = false ->
  exec re (String c s) = exec re s.
Proof.
  intros H1 H2. cbn [exec]. rewrite H1, H2. destruct re; reflexivity.
Qed.

Lemma next_segment_skips_char c s :
  (c =? ":")%char = false -> (c =? "{")%char = false ->
  next_segment (String c s) = next_segment s.
Proof.
  intros H1 H2. cbn [next_segment]. rewrite H1, H2. reflexivity.
Qed.

(** Each loop of [parseRouteParams] collects the segments of its own
    notation, in the order in which they occur. *)
Lemma exec_loops_partition n :
  forall s, String.length s <= n ->
    exec_loop ColonParam s = colon_names (occurrences s) /\
    exec_loop BraceParam s = brace_names (occurrences s).
Proof.
  induction n as [|n IH]; intros s L.
  - destruct s; [|simpl in L; lia].
    rewrite !exec_loop_eq, occurrences_eq. split; reflexivity.
  - destruct s as [|c rest].
    { rewrite !exec_loop_eq, occurrences_eq. split; reflexivity. }
    simpl in L. assert (Lrest : String.length rest <= n) by lia.
    pose proof (take_word_length rest) as TL.
    pose proof (exec_skips_word ColonParam rest) as SC.
    pose proof (exec_skips_word BraceParam rest) as SB.
    destruct (c =? ":")%char eqn:EC.
    + (* a colon *)
      assert (EB : (c =? "{")%char = false).
      { apply Ascii.eqb_eq in EC. subst c. reflexivity. }
      destruct (take_word rest) as [[|a u] r] eqn:T; cbn [fst snd] in *.
      * (* no name follows *)
        rewrite (exec_loop_ext ColonParam (String c rest) rest),
                (exec_loop_ext BraceParam (String c rest) rest),
                (occurrences_ext (String c rest) rest).
        -- apply IH; assumption.
        -- cbn [next_segment]. rewrite EC, T. reflexivity.
        -- cbn [exec]. rewrite EB. reflexivity.
        -- cbn [exec]. rewrite EC, T. reflexivity.
      * (* the segment :name *)
        assert (Lr : String.length r <= n) by (simpl in TL; lia).
        destruct (IH r Lr) as [IH1 IH2].
        rewrite (exec_loop_eq ColonParam (String c rest)),
                (exec_loop_ext BraceParam (String c rest) r),
                (occurrences_eq (String c rest)).
        -- cbn [exec next_segment]. rewrite EC, T.
           unfold colon_names, brace_names in *. cbn. rewrite IH1, IH2.
           split; reflexivity.
        -- cbn [exec]. rewrite EB. exact SB.
    + destruct (c =? "{")%char eqn:EB.
      * (* an opening brace *)
        destruct (take_word rest) as [[|a u] [|d after]] eqn:T; cbn [fst snd] in *;
          try (rewrite (exec_loop_ext ColonParam (String c rest) rest),
                       (exec_loop_ext BraceParam (String c rest) rest),
                       (occurrences_ext (String c rest) rest);
               [ apply IH; assumption
               | cbn [next_segment]; rewrite EC, EB, T; reflexivity
               | cbn [exec]; rewrite EB, T; reflexivity
               | cbn [exec]; rewrite EC; reflexivity ]).
        destruct (d =? "}")%char eqn:ED.
        -- (* the segment {name} *)
           assert (La : String.length after <= n) by (simpl in TL; lia).
           destruct (IH after La) as [IH1 IH2].
           assert (DC : (d =? ":")%char = false).
           { apply Ascii.eqb_eq in ED. subst d. reflexivity. }
           assert (DB : (d =? "{")%char = false).
           { apply Ascii.eqb_eq in ED. subst d. reflexivity. }
           rewrite (exec_loop_ext ColonParam (String c rest) after),
                   (exec_loop_eq BraceParam (String c rest)),
                   (occurrences_eq (String c rest)).
           ++ cbn [exec next_segment]. rewrite EC, EB, T, ED.
              unfold colon_names, brace_names in *. cbn. rewrite IH1, IH2.
              split; reflexivity.
           ++ cbn [exec]. rewrite EC, SC.
              apply exec_skips_char; assumption.
        -- rewrite (exec_loop_ext ColonParam (String c rest) rest),
                   (exec_loop_ext BraceParam (String c rest) rest),
                   (occurrences_ext (String c rest) rest).
           ++ apply IH; assumption.
           ++ cbn [next_segment]. rewrite EC, EB, T, ED. reflexivity.
           ++ cbn [exec]. rewrite EB, T, ED. reflexivity.
           ++ cbn [exec]. rewrite EC. reflexivity.
      * (* any other character *)
        rewrite (exec_loop_ext ColonParam (String c rest) rest),
                (exec_loop_ext BraceParam (String c rest) rest),
                (occurrences_ext (String c rest) rest).
        -- apply IH; assumption.
        -- apply next_segment_skips_char; assumption.
        -- apply exec_skips_char; assumption.
        -- apply exec_skips_char; assumption.
Qed.

End ParserFacts.

(** C3, as stated, fails: on a path that mixes both notations with a
    [{name}] segment ahead of a [:name] segment, [parseRouteParams] does not
    return the names in left-to-right order of occurrence. *)
Lemma parseRouteParams_not_in_order :
  Parser.parseRouteParams "/{a}/:b" = ["b"; "a"] /\
  Spec.extractParameters_in_order "/{a}/:b" = ["a"; "b"] /\
  Parser.parseRouteParams "/{a}/:b" <> Spec.extractParameters_in_order "/{a}/:b".
Proof.
  split; [reflexivity|]. split; [reflexivity|]. discriminate.
Qed.

(** C3 (amended): for every path, [parseRouteParams] returns the names of
    the [:name] segments in left-to-right order of occurrence, followed by
    the names of the [{name}] segments in left-to-right order of occurrence,
    one entry per occurrence; for ["/a/:id/b/{name}"] it returns
    [["id"; "name"]]. *)
Theorem parseRouteParams_colon_then_brace :
  (forall path,
      Parser.parseRouteParams path =
      (map snd (filter Spec.is_colon (Spec.occurrences path)) ++
       map snd (filter Spec.is_brace (Spec.occurrences path)))%list) /\
  Parser.parseRouteParams "/a/:id/b/{name}" = ["id"; "name"].
Proof.
  split; [|reflexivity].
  intros path. unfold Parser.parseRouteParams.
  destruct (exec_loops_partition (String.length path) path (le_n _)) as [H1 H2].
  rewrite H1, H2. reflexivity.
Qed.

(* ===================================================================== *)
(** ** Facts about property tables *)
(* ===================================================================== *)

Section TableFacts.
Context {A : Type}.
Implicit Types (table : list (string * A)) (k : string) (v : A).

Lemma lookup_update k' k v table :
  lookup k (update k' v table) =
  match lookup k table with
  | Some x => Some (if k' =? k then v else x)
  | None => None
  end.
Proof.
  induction table as [|[k0 v0] rest IH]; [reflexivity|].
  cbn [update]. destruct (k0 =? k') eqn:E0; cbn [lookup];
    destruct (k0 =? k) eqn:E1.
  - apply String.eqb_eq in E0, E1. subst. rewrite String.eqb_refl. reflexivity.
  - apply String.eqb_eq in E0. subst k0. rewrite E1.
    destruct (lookup k rest); reflexivity.
  - apply String.eqb_eq in E1. subst k0. rewrite String.eqb_sym, E0.
    reflexivity.
  - exact IH.
Qed.

Lemma lookup_place (i : N) k' k v table :
  lookup k' table = None ->
  lookup k (place i k' v table) = if k' =? k then Some v else lookup k table.
Proof.
  induction table as [|[k0 v0] rest IH]; intros F; [reflexivity|].
  cbn [lookup] in F. destruct (k0 =? k') eqn:E0; [discriminate F|].
  cbn [place].
  destruct (array_index k0) as [j|]; [destruct (j <? i)%N|]; try reflexivity.
  cbn [lookup]. rewrite (IH F). destruct (k0 =? k) eqn:E1; [|reflexivity].
  apply String.eqb_eq in E1. subst k0. rewrite String.eqb_sym, E0. reflexivity.
Qed.

Lemma lookup_last k' k v table :
  lookup k' table = None ->
  lookup k (table ++ [(k', v)])%list
  = if k' =? k then Some v else lookup k table.
Proof.
  induction table as [|[k0 v0] rest IH]; intros F; [reflexivity|].
  cbn [lookup] in F. destruct (k0 =? k') eqn:E0; [discriminate F|].
  cbn [app lookup]. rewrite (IH F). destruct (k0 =? k) eqn:E1; [|reflexivity].
  apply String.eqb_eq in E1. subst k0. rewrite String.eqb_sym, E0. reflexivity.
Qed.

(** Defining a property changes what the table owns under that name only. *)
Lemma lookup_define k' k v table :
  lookup k (define k' v table) = if k' =? k then Some v else lookup k table.
Proof.
  unfold define, owns. destruct (lookup k' table) as [x|] eqn:F.
  - rewrite lookup_update. destruct (k' =? k) eqn:E.
    + apply String.eqb_eq in E. subst k'. rewrite F. reflexivity.
    + destruct (lookup k table); reflexivity.
  - destruct (array_index k') as [i|];
      [apply lookup_place|apply lookup_last]; exact F.
Qed.

(** So does an assignment, except that it does not create [__proto__]. *)
Lemma lookup_assign k' k v table :
  lookup k (assign k' v table) =
  if k' =? k
  then if (k =? "__proto__") && negb (owns k table) then None else Some v
  else lookup k table.
Proof.
  unfold assign. destruct (k' =? k) eqn:E.
  - apply String.eqb_eq in E. subst k'.
    destruct ((k =? "__proto__") && negb (owns k table)) eqn:C.
    + apply andb_true_iff in C. destruct C as [_ C]. unfold owns in C.
      destruct (lookup k table); [discriminate C|reflexivity].
    + rewrite lookup_define, String.eqb_refl. reflexivity.
  - destruct ((k' =? "__proto__") && negb (owns k' table)); [reflexivity|].
    rewrite lookup_define, E. reflexivity.
Qed.

(** An assignment never changes whether a table owns [__proto__]. *)
Lemma owns_proto_assign k' v table :
  owns "__proto__" (assign k' v table) = owns "__proto__" table.
Proof.
  unfold owns at 1. rewrite lookup_assign. unfold owns.
  destruct (k' =? "__proto__"); [|reflexivity].
  rewrite String.eqb_refl. cbn [andb].
  destruct (lookup "__proto__" table); reflexivity.
Qed.


Lemma owns_proto_fold_assign {E : Type} (key : E -> string) (value : E -> A)
      (entries : list E) table :
  owns "__proto__" (fold_left (fun table e => assign (key e) (value e) table)
                              entries table)
  = owns "__proto__" table.
Proof.
  revert table. induction entries as [|e entries IH]; intros table;
    [reflexivity|].
  cbn [fold_left]. rewrite IH. apply owns_proto_assign.
Qed.

Lemma lookup_fold_assign {E : Type} (key : E -> string) (value : E -> A)
      (entries : list E) table k :
  lookup k (fold_left (fun table e => assign (key e) (value e) table)
                      entries table)
  = match find (fun e => key e =? k) (rev entries) with
    | Some e =>
        if (k =? "__proto__") && negb (owns k table) then None
        else Some (value e)
    | None => lookup k table
    end.
Proof.
  induction entries as [|e entries IH] using rev_ind; [reflexivity|].
  rewrite fold_left_app, rev_app_distr. cbn [fold_left rev app find].
  rewrite lookup_assign. destruct (key e =? k); [|exact IH].
  destruct (k =? "__proto__") eqn:P; [|reflexivity].
  apply String.eqb_eq in P. subst k.
  rewrite owns_proto_fold_assign. reflexivity.
Qed.

(** For a name other than [__proto__]. *)
Lemma lookup_fold_assign_named {E : Type} (key : E -> string) (value : E -> A)
      (entries : list E) table k :
  k <> "__proto__" ->
  lookup k (fold_left (fun table e => assign (key e) (value e) table)
                      entries table)
  = match find (fun e => key e =? k) (rev entries) with
    | Some e => Some (value e)
    | None => lookup k table
    end.
Proof.
  intros N. rewrite lookup_fold_assign.
  apply String.eqb_neq in N. rewrite N. reflexivity.
Qed.

End TableFacts.

(* ===================================================================== *)
(** ** Properties of value synthesis *)
(* ===================================================================== *)

Section GeneratorFacts.
Import Generator.
Variable paramValues : option (list (string * JSValue)).

(** [generateDataFromSchema] solves the recursion equations of the source:
    it is its own body with itself as the recursive call. *)
Lemma generateDataFromSchema_eq schema :
  generateDataFromSchema paramValues schema =
  generateDataFromSchema_body paramValues
    (generateDataFromSchema paramValues) schema.
Proof.
  destruct schema as [| |b|n|s|xs|props|f]; try reflexivity.
  { destruct b; reflexivity. }
  { unfold generateDataFromSchema_body. cbn. destruct (n =? 0)%Z; reflexivity. }
  { unfold generateDataFromSchema_body. cbn.
    destruct (s =? EmptyString); reflexivity. }
  unfold generateDataFromSchema_body.
  cbn [generateDataFromSchema truthy negb get_prop].
  destruct (get props "type") as [| |b|n|ty|xs|ps|f];
    try (destruct (truthy (get props "$ref")); reflexivity).
  destruct (ty =? "string"); [reflexivity|].
  destruct ((ty =? "number") || (ty =? "integer")); [reflexivity|].
  destruct (ty =? "boolean"); [reflexivity|].
  destruct (ty =? "array").
  - clear ty. induction props as [|[k v] rest IH]; [reflexivity|].
    unfold get in *. cbn [lookup].
    destruct (k =? "items"); [reflexivity|]. exact IH.
  - destruct (ty =? "object"); [|reflexivity].
    clear ty. unfold generateObjectFromSchema_body. cbn [get_prop].
    induction props as [|[k v] rest IH]; [reflexivity|].
    unfold get in *. cbn [lookup].
    destruct (k =? "properties"); [|exact IH].
    clear IH.
    destruct v as [| |b|n|s|xs|es|f]; try reflexivity.
    + destruct b; reflexivity.
    + cbn [truthy]. destruct (n =? 0)%Z; reflexivity.
    + cbn [truthy]. destruct (s =? EmptyString); cbn [negb]; [reflexivity|].
      f_equal. cbn [Object_entries].
      match goal with
      | |- fold_left ?f _ _ = fold_left ?g _ _ =>
          enough (H : forall i result,
                     fold_left f (indexed i (chars s)) result
                     = fold_left g (indexed i (chars s)) result) by apply H
      end.
      induction s as [|c s IH]; intros i result; [reflexivity|].
      cbn [chars indexed fold_left fst]. rewrite IH. reflexivity.
    + cbn [truthy negb Object_entries]. f_equal.
      match goal with
      | |- ?F 0 xs [] = fold_left ?g _ _ =>
          enough (H : forall i result,
                     F i xs result = fold_left g (indexed i xs) result) by apply H
      end.
      induction xs as [|x xs IH]; intros i result; [reflexivity|].
      cbn [indexed fold_left]. rewrite <- IH. reflexivity.
    + cbn [truthy negb Object_entries]. f_equal.
      match goal with
      | |- ?F es [] = fold_left ?g _ _ =>
          enough (H : forall result, F es result = fold_left g es result)
            by apply H
      end.
      induction es as [|[k' v'] es IH]; intros result; [reflexivity|].
      cbn [fold_left]. rewrite <- IH. reflexivity.
Qed.

(** On an object node the [object] arm is [generateObjectFromSchema]. *)
Lemma generateDataFromSchema_object schema :
  truthy schema = true ->
  get_prop schema "type" = JString "object" ->
  generateDataFromSchema paramValues schema =
  generateObjectFromSchema paramValues schema.
Proof.
  intros T H. rewrite generateDataFromSchema_eq.
  unfold generateDataFromSchema_body. rewrite T, H. reflexivity.
Qed.

(** X13: on a string, number, integer or boolean node the value is
    [example || default || literal]: the example when it is truthy, else the
    default when it is truthy, else the literal. *)
Lemma generateDataFromSchema_scalar schema ty literal :
  truthy schema = true ->
  get_prop schema "type" = JString ty ->
  scalar_literal ty = Some literal ->
  let example := get_prop schema "example" in
  let default := get_prop schema "default" in
  let value := generateDataFromSchema paramValues schema in
  (truthy example = true -> value = example) /\
  (truthy example = false -> truthy default = true -> value = default) /\
  (truthy example = false -> truthy default = false -> value = literal).
Proof.
  intros T H L. cbv zeta. rewrite generateDataFromSchema_eq.
  unfold generateDataFromSchema_body. rewrite T, H. cbn [negb].
  unfold scalar_literal in L. unfold js_or.
  destruct (ty =? "string");
    [|destruct ((ty =? "number") || (ty =? "integer"));
      [|destruct (ty =? "boolean"); [|discriminate L]]];
    inversion L; subst literal;
    (split; [|split]);
    try (intros E; rewrite E; cbn; rewrite E; reflexivity);
    intros E D; rewrite E, D; cbn; try rewrite D; reflexivity.
Qed.

Lemma fold_left_pointwise {A B : Type} (f g : A -> B -> A) :
  (forall a x, f a x = g a x) ->
  forall xs a, fold_left f xs a = fold_left g xs a.
Proof.
  intros H xs. induction xs as [|x xs IH]; intros a; [reflexivity|].
  cbn [fold_left]. rewrite H. apply IH.
Qed.

(** X14: on an object node with declared properties, the generated object
    owns, under each declared name other than [__proto__], what reading
    that name from [paramValues] yields when that is not [undefined] (an
    entry of [paramValues], or a member it inherits, such as [constructor]),
    and otherwise the value generated from the property's schema; under a
    name other than [__proto__] that is not declared it owns nothing. *)
Lemma generateDataFromSchema_property schema properties k :
  truthy schema = true ->
  get_prop schema "type" = JString "object" ->
  get_prop schema "properties" = JObject properties ->
  k <> "__proto__" ->
  own_property (generateDataFromSchema paramValues schema) k
  = match find (fun e => fst e =? k) (rev properties) with
    | Some (propName, propSchema) =>
        Some (if provided paramValues propName
              then provided_value paramValues propName
              else generateDataFromSchema paramValues propSchema)
    | None => None
    end.
Proof.
  intros T H P N. rewrite (generateDataFromSchema_object schema T H).
  unfold generateObjectFromSchema, generateObjectFromSchema_body. rewrite P.
  cbn [truthy negb Object_entries own_property].
  rewrite (fold_left_pointwise _
             (fun body (e : string * JSValue) =>
                assign (fst e)
                       (if provided paramValues (fst e)
                        then provided_value paramValues (fst e)
                        else generateDataFromSchema paramValues (snd e)) body)).
  - rewrite (lookup_fold_assign_named fst
               (fun e : string * JSValue =>
                  if provided paramValues (fst e)
                  then provided_value paramValues (fst e)
                  else generateDataFromSchema paramValues (snd e)) _ _ _ N).
    destruct (find _ _) as [[propName propSchema]|]; reflexivity.
  - intros body [propName propSchema]. cbn [fst snd].
    destruct (provided paramValues propName); reflexivity.
Qed.

End GeneratorFacts.

Lemma recognised_type_false ty :
  recognised_type ty = false ->
  (ty =? "string") = false /\ (ty =? "number") = false /\
  (ty =? "integer") = false /\ (ty =? "boolean") = false /\
  (ty =? "array") = false /\ (ty =? "object") = false.
Proof.
  unfold recognised_type. cbn [existsb].
  rewrite !orb_false_iff. tauto.
Qed.

(** C4: evaluation at the failing inputs.  [||] tests truthiness, not
    presence: a boolean node with example [false] yields [true], a number
    node with example [0] yields [123] (or its default), and a string node
    with example [""] yields ["test-string"]; an override [false] for a
    property, in contrast, is honoured. *)
Theorem generateDataFromSchema_drops_falsy_example :
  Generator.generateDataFromSchema None
    (JObject [("type", JString "boolean"); ("example", JBool false)])
  = JBool true /\
  Generator.generateDataFromSchema None
    (JObject [("type", JString "number"); ("example", JNumber 0)])
  = JNumber 123 /\
  Generator.generateDataFromSchema None
    (JObject [("type", JString "integer"); ("example", JNumber 0);
              ("default", JNumber 7)])
  = JNumber 7 /\
  Generator.generateDataFromSchema None
    (JObject [("type", JString "string"); ("example", JString EmptyString)])
  = JString "test-string" /\
  Generator.generateDataFromSchema (Some [("flag", JBool false)])
    (JObject [("type", JString "object");
              ("properties",
               JObject [("flag", JObject [("type", JString "boolean")])])])
  = JObject [("flag", JBool false)].
Proof. repeat split. Qed.

(** C5, as stated, fails: a node whose [type] is an unrecognised string
    yields [null], not an empty mapping. *)
Lemma generateDataFromSchema_unknown_type_is_null :
  recognised_type "file" = false /\
  Generator.generateDataFromSchema None (JObject [("type", JString "file")])
  = JNull /\
  Generator.generateDataFromSchema None (JObject [("type", JString "file")])
  <> JObject [].
Proof. repeat split. discriminate. Qed.

(** C5 (amended): [generateDataFromSchema] is a total function.  A falsy
    node yields [null]; a node whose [type] is a string outside the six
    recognised tags yields [null] (also when it carries a [$ref]); a truthy
    node whose [type] is missing or not a string yields the empty mapping,
    whether or not it carries a [$ref]. *)
Theorem generateDataFromSchema_fallbacks paramValues schema :
  (truthy schema = false ->
   Generator.generateDataFromSchema paramValues schema = JNull) /\
  (forall ty,
      truthy schema = true ->
      get_prop schema "type" = JString ty ->
      recognised_type ty = false ->
      Generator.generateDataFromSchema paramValues schema = JNull) /\
  (truthy schema = true ->
   typeof (get_prop schema "type") <> "string" ->
   Generator.generateDataFromSchema paramValues schema = JObject []).
Proof.
  rewrite generateDataFromSchema_eq. unfold Generator.generateDataFromSchema_body.
  split; [|split].
  - intros T. rewrite T. reflexivity.
  - intros ty T H R. rewrite T, H. cbn [negb].
    destruct (recognised_type_false ty R) as (E1 & E2 & E3 & E4 & E5 & E6).
    rewrite E1, E2, E3, E4, E5, E6. reflexivity.
  - intros T H. rewrite T. cbn [negb].
    destruct (get_prop schema "type");
      try (destruct (truthy (get_prop schema "$ref")); reflexivity).
    exfalso. apply H. reflexivity.
Qed.

Lemma generateDataFromSchema_fallbacks_witness :
  Generator.generateDataFromSchema None JNull = JNull /\
  Generator.generateDataFromSchema None (JObject [("type", JString "file")])
  = JNull /\
  Generator.generateDataFromSchema None
    (JObject [("$ref", JString "#/definitions/User")]) = JObject [].
Proof.
  split; [|split].
  - apply (proj1 (generateDataFromSchema_fallbacks None JNull)). reflexivity.
  - apply (proj1 (proj2 (generateDataFromSchema_fallbacks
                           None (JObject [("type", JString "file")])))
             "file"); reflexivity.
  - apply (proj2 (proj2 (generateDataFromSchema_fallbacks
                           None (JObject [("$ref", JString "#/definitions/User")])))).
    + reflexivity.
    + cbn. discriminate.
Defined.

(* ===================================================================== *)
(** ** Properties of request synthesis *)
(* ===================================================================== *)

(** C7, as stated, fails: a parameter without example but with a declared
    default gets the type-keyed literal, not its default. *)
Lemma getParameterValue_ignores_default :
  let param := plain_param "limit" "integer" InQuery
                           (JNumber 10) JUndefined JUndefined in
  Param.default param = JNumber 10 /\
  Endpoint.getParameterValue param (plain_config None) = JNumber 123 /\
  Endpoint.getParameterValue param (plain_config None) <> Param.default param.
Proof. repeat split. discriminate. Qed.

(** C7 (amended): [getParameterValue] returns the entry [config.paramValues]
    holds under the parameter's name, when it holds one whose value is not
    [undefined]; when reading the parameter's name from [config.paramValues]
    yields [undefined] (there is no [config.paramValues], or it has no value
    under that name, not even a member that every object inherits), it
    returns the parameter's example when it has a truthy one and, when it
    has no example, the literal keyed by its type (["test-<name>"] for
    [string] and for any unlisted type, [123] for [number] and [integer],
    [true] for [boolean], [[]] for [array], [{}] for [object]).  The
    parameter's [default] is never consulted. *)
Theorem getParameterValue_precedence (param : Param.t) (config : TestConfig.t) :
  let overrides := TestConfig.paramValues config in
  let name := Param.name param in
  let ty := Param.type param in
  let value := Endpoint.getParameterValue param config in
  (forall v, override overrides name = Some v -> value = v) /\
  (Generator.provided overrides name = false ->
   truthy (Param.example param) = true ->
   value = Param.example param) /\
  (Generator.provided overrides name = false ->
   Param.example param = JUndefined ->
   (ty = "string" -> value = JString ("test-" ++ name)) /\
   (ty = "number" \/ ty = "integer" -> value = JNumber 123) /\
   (ty = "boolean" -> value = JBool true) /\
   (ty = "array" -> value = JArray []) /\
   (ty = "object" -> value = JObject []) /\
   (recognised_type ty = false -> value = JString ("test-" ++ name))) /\
  (forall d,
      Endpoint.getParameterValue
        (Param.mk (Param.name param) (Param.type param) (Param.required param)
                  (Param.location param) (Param.description param)
                  d (Param.example param) (Param.enum param)
                  (Param.format param) (Param.schema param)) config
      = value).
Proof.
  cbv zeta. unfold Endpoint.getParameterValue.
  split; [|split; [|split]].
  - intros v O. unfold override in O.
    unfold Generator.provided, Generator.provided_value, get.
    destruct (TestConfig.paramValues config) as [values|]; [|discriminate O].
    destruct (lookup (Param.name param) values) as [x|]; [|discriminate O].
    destruct (is_defined x); inversion O. reflexivity.
  - intros P T. rewrite P. unfold js_or. rewrite T.
    repeat match goal with |- context [if ?c then _ else _] => destruct c end;
      reflexivity.
  - intros P E. rewrite P, E. unfold js_or. cbn [truthy].
    repeat split.
    + intros H. rewrite H. reflexivity.
    + intros [H|H]; rewrite H; reflexivity.
    + intros H. rewrite H. reflexivity.
    + intros H. rewrite H. reflexivity.
    + intros H. rewrite H. reflexivity.
    + intros H.
      destruct (recognised_type_false _ H) as (E1 & E2 & E3 & E4 & E5 & E6).
      rewrite E1, E2, E3, E4, E5, E6. reflexivity.
  - intros d. reflexivity.
Qed.

Lemma getParameterValue_precedence_witness :
  Endpoint.getParameterValue
    (plain_param "id" "string" InPath JUndefined (JString "abc") JUndefined)
    (plain_config (Some [("id", JNumber 7)])) = JNumber 7 /\
  Endpoint.getParameterValue
    (plain_param "id" "string" InPath JUndefined (JString "abc") JUndefined)
    (plain_config (Some [])) = JString "abc" /\
  Endpoint.getParameterValue
    (plain_param "page" "integer" InQuery (JNumber 10) JUndefined JUndefined)
    (plain_config None) = JNumber 123.
Proof.
  split; [|split].
  - apply (proj1 (getParameterValue_precedence
                    (plain_param "id" "string" InPath JUndefined
                                 (JString "abc") JUndefined)
                    (plain_config (Some [("id", JNumber 7)])))).
    reflexivity.
  - apply (proj1 (proj2 (getParameterValue_precedence
                    (plain_param "id" "string" InPath JUndefined
                                 (JString "abc") JUndefined)
                    (plain_config (Some []))))); reflexivity.
  - apply (proj1 (proj2 (proj2 (getParameterValue_precedence
                    (plain_param "page" "integer" InQuery (JNumber 10)
                                 JUndefined JUndefined)
                    (plain_config None))))); try reflexivity.
    right. reflexivity.
Defined.

(** C6, as stated, fails: when a body parameter other than the first one
    declares a schema, the body is not generated from that schema. *)
Lemma buildRequestBody_looks_at_first_only :
  let a := plain_param "a" "string" InBody JUndefined JUndefined JUndefined in
  let b := plain_param "b" "object" InBody JUndefined JUndefined
                       (JObject [("type", JString "string")]) in
  let endpoint := plain_endpoint "/things" POST [a; b] [] in
  let config := plain_config None in
  In b (Endpoint.parameters_in InBody endpoint) /\
  truthy (Param.schema b) = true /\
  Endpoint.buildRequestBody endpoint config
  = JObject [("a", JString "test-a"); ("b", JObject [])] /\
  Generator.generateDataFromSchema (TestConfig.paramValues config) (Param.schema b)
  = JString "test-string" /\
  Endpoint.buildRequestBody endpoint config
  <> Generator.generateDataFromSchema (TestConfig.paramValues config)
                                      (Param.schema b).
Proof.
  cbv zeta. split; [right; left; reflexivity|].
  repeat split. discriminate.
Qed.

(** C6 (amended): if the first body-location parameter declares a schema,
    the request body is [generate(that schema, config.paramValues)]; if
    body-location parameters exist and the first one has no schema, the body
    is a mapping that owns, under each body parameter's name other than
    [__proto__], that parameter's synthesized value, and nothing under a
    name other than [__proto__] that no body parameter has; if no
    body-location parameters exist, no body is attached; and a body is
    attached only when the method is POST, PUT or PATCH, in which case it
    is the body just described. *)
Theorem request_body_rules {host : Host}
        (endpoint : ApiEndpoint.t) (config : TestConfig.t) :
  let bodyParams := Endpoint.parameters_in InBody endpoint in
  let body := Endpoint.buildRequestBody endpoint config in
  let attached := AxiosRequestConfig.data (Endpoint.axiosConfig endpoint config) in
  (forall first others,
      bodyParams = first :: others ->
      truthy (Param.schema first) = true ->
      body = Generator.generateDataFromSchema (TestConfig.paramValues config)
                                              (Param.schema first)) /\
  (forall first others,
      bodyParams = first :: others ->
      truthy (Param.schema first) = false ->
      exists mapping,
        body = JObject mapping /\
        forall k,
          k <> "__proto__" ->
          lookup k mapping =
          match find (fun p => Param.name p =? k) (rev bodyParams) with
          | Some p => Some (Endpoint.getParameterValue p config)
          | None => None
          end) /\
  (bodyParams = [] -> attached = JUndefined) /\
  (attached <> JUndefined ->
   In (ApiEndpoint.method endpoint) [POST; PUT; PATCH] /\ attached = body).
Proof.
  cbv zeta. unfold Endpoint.axiosConfig, Endpoint.buildRequestBody.
  cbn [AxiosRequestConfig.data].
  split; [|split; [|split]].
  - intros first others E T. rewrite E, T. reflexivity.
  - intros first others E T. rewrite E, T. eexists. split; [reflexivity|].
    intros k N.
    exact (lookup_fold_assign_named
             Param.name (fun p => Endpoint.getParameterValue p config) _ [] k N).
  - intros E. rewrite E. reflexivity.
  - destruct (truthy _ && Endpoint.carries_body endpoint) eqn:A;
      [|intros H; exfalso; apply H; reflexivity].
    intros _. apply andb_true_iff in A. destruct A as [_ C].
    split; [|reflexivity].
    unfold Endpoint.carries_body in C.
    destruct (ApiEndpoint.method endpoint); cbn in C; try discriminate C;
      cbn; tauto.
Qed.

Lemma request_body_rules_witness :
  let host := fixed_host 200 JNull in
  let config := plain_config None in
  let item := plain_param "item" "object" InBody JUndefined JUndefined
                          (JObject [("type", JString "integer")]) in
  let a := plain_param "a" "string" InBody JUndefined JUndefined JUndefined in
  let q := plain_param "q" "string" InQuery JUndefined JUndefined JUndefined in
  Endpoint.buildRequestBody (plain_endpoint "/things" POST [item] []) config
  = JNumber 123 /\
  (exists mapping,
      Endpoint.buildRequestBody (plain_endpoint "/things" PUT [a] []) config
      = JObject mapping /\ lookup "a" mapping = Some (JString "test-a")) /\
  AxiosRequestConfig.data
    (Endpoint.axiosConfig (plain_endpoint "/things" POST [q] []) config)
  = JUndefined /\
  In (ApiEndpoint.method (plain_endpoint "/things" PATCH [a] [])) [POST; PUT; PATCH].
Proof.
  cbv zeta. split; [|split; [|split]].
  - exact (proj1 (@request_body_rules (fixed_host 200 JNull)
                    (plain_endpoint "/things" POST
                       [plain_param "item" "object" InBody JUndefined JUndefined
                                    (JObject [("type", JString "integer")])] [])
                    (plain_config None))
             (plain_param "item" "object" InBody JUndefined JUndefined
                          (JObject [("type", JString "integer")]))
             [] eq_refl eq_refl).
  - destruct (proj1 (proj2 (@request_body_rules (fixed_host 200 JNull)
                    (plain_endpoint "/things" PUT
                       [plain_param "a" "string" InBody JUndefined JUndefined
                                    JUndefined] [])
                    (plain_config None)))
                _ [] eq_refl eq_refl) as [mapping [E G]].
    exists mapping. split; [exact E|].
    rewrite G; [reflexivity|discriminate].
  - apply (proj1 (proj2 (proj2 (@request_body_rules (fixed_host 200 JNull)
                    (plain_endpoint "/things" POST
                       [plain_param "q" "string" InQuery JUndefined JUndefined
                                    JUndefined] [])
                    (plain_config None))))).
    reflexivity.
  - apply (proj2 (proj2 (proj2 (@request_body_rules (fixed_host 200 JNull)
                    (plain_endpoint "/things" PATCH
                       [plain_param "a" "string" InBody JUndefined JUndefined
                                    JUndefined] [])
                    (plain_config None))))).
    cbn. discriminate.
Defined.

(* ===================================================================== *)
(** ** Properties of execution and of the orchestrator *)
(* ===================================================================== *)

Section ExecutionFacts.
Context {host : Host}.
Import Eff Endpoint Testers.

Lemma nth_error_app_last {A : Type} (h : list A) (o : A) :
  nth_error (h ++ [o]) (List.length h) = Some o.
Proof.
  induction h as [|x h IH]; [reflexivity|]. exact IH.
Qed.

Lemma update_nth_app_last {A : Type} (f : A -> A) (h : list A) (o : A) :
  update_nth (List.length h) f (h ++ [o]) = (h ++ [f o])%list.
Proof.
  induction h as [|x h IH]; [reflexivity|]. cbn. rewrite IH. reflexivity.
Qed.

(** [testEndpoint] never throws: it allocates exactly one result object and
    returns the reference to it. *)
Lemma testEndpoint_run endpoint config st :
  testEndpoint endpoint config st =
  let sent := axios (axiosConfig endpoint config) (Store.world st) in
  (Returns (List.length (Store.heap st)),
   Store.mk host (snd sent)
            (Store.heap st ++
               [raw_result endpoint (Date_now (Store.world st))
                           (Date_now (snd sent)) (fst sent)])
            (Store.results st)).
Proof.
  unfold testEndpoint, try_catch, bind, now, request, new_object, modify, ret.
  cbn [Store.world Store.heap Store.results].
  destruct (axios (axiosConfig endpoint config) (Store.world st))
    as [[response|error] w'].
  - cbn [Store.world Store.heap Store.results fst snd raw_result].
    destruct (existsb (Z.eqb (AxiosResponse.status response))
                      (successStatusCodes endpoint)) eqn:S.
    + reflexivity.
    + cbn [negb Store.heap Store.world Store.results].
      rewrite nth_error_app_last, update_nth_app_last. reflexivity.
  - reflexivity.
Qed.

Lemma checked_keeps config endpoint r :
  EndpointTestResult.endpoint (checked config endpoint r)
  = EndpointTestResult.endpoint r /\
  EndpointTestResult.statusCode (checked config endpoint r)
  = EndpointTestResult.statusCode r /\
  EndpointTestResult.responseBody (checked config endpoint r)
  = EndpointTestResult.responseBody r.
Proof.
  unfold checked.
  destruct (_ && _ && _); [destruct (negb _)|]; repeat split.
Qed.

(** The schema step leaves the result alone unless validation is enabled,
    the result is a success and its body is truthy. *)
Lemma checked_unchanged config endpoint r :
  validateSchema_enabled config = false
  \/ EndpointTestResult.success r = false
  \/ truthy (EndpointTestResult.responseBody r) = false ->
  checked config endpoint r = r.
Proof.
  unfold checked. intros [H|[H|H]]; rewrite H;
    rewrite ?andb_false_r; reflexivity.
Qed.

(** One turn of the loop never throws: it allocates one result object and
    pushes the reference to it. *)
Lemma test_one_run config endpoint st :
  test_one config endpoint st =
  let sent := axios (axiosConfig endpoint config) (Store.world st) in
  (Returns tt,
   Store.mk host (snd sent)
            (Store.heap st ++
               [checked config endpoint
                  (raw_result endpoint (Date_now (Store.world st))
                              (Date_now (snd sent)) (fst sent))])
            (Store.results st ++ [List.length (Store.heap st)])).
Proof.
  unfold test_one, try_catch, bind. rewrite testEndpoint_run. cbv zeta.
  unfold results_push, read, checked.
  cbn [Store.world Store.heap Store.results].
  rewrite nth_error_app_last.
  destruct (validateSchema_enabled config && _ && _); [|reflexivity].
  destruct (negb _); [|reflexivity].
  unfold modify. cbn [Store.world Store.heap Store.results].
  rewrite nth_error_app_last, update_nth_app_last. reflexivity.
Qed.

(** The loop appends one result per endpoint, in order, and pushes the
    references to them in the same order. *)
Lemma for_of_run config endpoints :
  forall st, exists w' objs,
    for_of endpoints (test_one config) st =
    (Returns tt,
     Store.mk host w' (Store.heap st ++ objs)
              (Store.results st ++
                 seq (List.length (Store.heap st)) (List.length objs))) /\
    Forall2 (produced config) endpoints objs.
Proof.
  induction endpoints as [|endpoint rest IH]; intros st.
  - exists (Store.world st), []. split; [|constructor].
    cbn. rewrite !app_nil_r. destruct st; reflexivity.
  - cbn [for_of]. unfold bind at 1. rewrite test_one_run. cbv beta iota zeta.
    match goal with
    | |- context [for_of rest _ ?st1] => destruct (IH st1) as (w' & objs & R & F)
    end.
    cbn [Store.world Store.heap Store.results] in R.
    eexists w', (_ :: objs). split.
    + rewrite R. f_equal. f_equal.
      * rewrite <- app_assoc. reflexivity.
      * rewrite <- app_assoc, length_app. cbn [List.length seq app].
        rewrite Nat.add_1_r. reflexivity.
    + constructor; [|exact F]. do 3 eexists. reflexivity.
Qed.

Lemma deref_all_appended (objs : list EndpointTestResult.t) :
  forall heap,
    deref_all (heap ++ objs) (seq (List.length heap) (List.length objs))
    = Some objs.
Proof.
  induction objs as [|o objs IH]; intros heap; [reflexivity|].
  cbn [List.length seq deref_all].
  assert (E : (heap ++ o :: objs = (heap ++ [o]) ++ objs)%list)
    by (rewrite <- app_assoc; reflexivity).
  assert (L : S (List.length heap) = List.length (heap ++ [o])%list)
    by (rewrite length_app; cbn; lia).
  rewrite nth_error_app2, Nat.sub_diag by lia. cbn [nth_error].
  rewrite E, L, IH. reflexivity.
Qed.

(** The report of a run: it exists, and its entries are the results of the
    successive turns of the loop. *)
Lemma report_run endpoints config (w : World) :
  exists objs,
    report endpoints config w = Some objs /\
    Forall2 (produced config) endpoints objs.
Proof.
  unfold report, testApiEndpoints, bind, results_new, results_get.
  cbn [Store.world Store.heap Store.results].
  destruct (for_of_run config endpoints (Store.mk host w [] []))
    as (w' & objs & R & F).
  rewrite R. cbn [Store.world Store.heap Store.results app List.length].
  exists objs. split; [|exact F].
  apply (deref_all_appended objs []).
Qed.


End ExecutionFacts.

Section ClassificationFacts.
Import Endpoint.

Lemma existsb_Zeqb_In (x : Z) (xs : list Z) :
  existsb (Z.eqb x) xs = true <-> In x xs.
Proof.
  rewrite existsb_exists. split.
  - intros (y & I & E). apply Z.eqb_eq in E. subst y. exact I.
  - intros I. exists x. split; [exact I|apply Z.eqb_refl].
Qed.




End ClassificationFacts.




(** C10: in the report of [testApiEndpoints], a result whose observed status
    is one of the endpoint's success codes keeps [success = true] and has no
    error whenever schema validation is disabled or the response body is
    falsy (absent, [null], [""], [0], [false]), whatever the schema compiler
    would say about that body; and a result whose observed status is not a
    success code keeps its status-mismatch error, so no schema check ran
    for it either. *)
Theorem falsy_body_skips_schema_check {host : Host}
        (endpoints : list ApiEndpoint.t) (config : TestConfig.t) (w : World) :
  exists results,
    Testers.report endpoints config w = Some results /\
    forall r status,
      In r results ->
      EndpointTestResult.statusCode r = Some status ->
      let codes := Endpoint.successStatusCodes (EndpointTestResult.endpoint r) in
      (In status codes ->
       Testers.validateSchema_enabled config = false
       \/ truthy (EndpointTestResult.responseBody r) = false ->
       EndpointTestResult.success r = true /\
       EndpointTestResult.error r = None) /\
      (~ In status codes ->
       EndpointTestResult.success r = false /\
       EndpointTestResult.error r
       = Some (Endpoint.status_mismatch codes status)).
Proof.
  destruct (report_run endpoints config w) as (objs & R & F).
  exists objs. split; [exact R|]. clear R.
  intros r status I. cbv zeta.
  assert (P : exists endpoint, produced config endpoint r).
  { clear -F I. induction F as [|endpoint o endpoints objs P F IH];
      [destruct I|].
    destruct I as [<-|I]; [exists endpoint; exact P|exact (IH I)]. }
  destruct P as (endpoint & t0 & t1 & outcome & ->).
  destruct (checked_keeps config endpoint
                          (raw_result endpoint t0 t1 outcome)) as (KE & KS & KB).
  rewrite KE, KS, KB. clear KE KS KB.
  destruct outcome as [response|error]; cbn [raw_result];
    cbn [EndpointTestResult.statusCode EndpointTestResult.endpoint
         EndpointTestResult.responseBody];
    [|discriminate].
  intros E. inversion E. subst status. clear E.
  split.
  - intros M D. apply existsb_Zeqb_In in M.
    rewrite checked_unchanged.
    + cbn [EndpointTestResult.success EndpointTestResult.error].
      rewrite M. split; reflexivity.
    + cbn [EndpointTestResult.success EndpointTestResult.responseBody].
      destruct D as [D|D]; [left|right; right]; exact D.
  - intros N.
    assert (S : existsb (Z.eqb (AxiosResponse.status response))
                        (Endpoint.successStatusCodes endpoint) = false).
    { destruct (existsb _ _) eqn:S; [|reflexivity].
      exfalso. apply N. apply existsb_Zeqb_In. exact S. }
    rewrite checked_unchanged.
    + cbn [EndpointTestResult.success EndpointTestResult.error].
      rewrite S. split; reflexivity.
    + right; left. cbn [EndpointTestResult.success]. exact S.
Qed.

(** A successful answer with body [0] for an endpoint whose declared schema
    the validator rejects: the result stays successful. *)
Lemma falsy_body_skips_schema_check_witness :
  let host := fixed_host 200 (JNumber 0) in
  let endpoint :=
    plain_endpoint "/count" GET []
      [Response.mk 200 "OK" JSON (JObject [("type", JString "object")])] in
  let config :=
    TestConfig.mk "http://localhost:3000" None None (Some true) None in
  exists results,
    Testers.report [endpoint] config tt = Some results /\
    forall r, In r results ->
              EndpointTestResult.success r = true /\
              EndpointTestResult.error r = None.
Proof.
  cbv zeta.
  destruct (@falsy_body_skips_schema_check (fixed_host 200 (JNumber 0))
              [plain_endpoint "/count" GET []
                 [Response.mk 200 "OK" JSON
                    (JObject [("type", JString "object")])]]
              (TestConfig.mk "http://localhost:3000" None None (Some true) None)
              tt) as (results & R & H).
  exists results. split; [exact R|].
  intros r I.
  assert (E : results
              = [EndpointTestResult.mk
                   (plain_endpoint "/count" GET []
                      [Response.mk 200 "OK" JSON
                         (JObject [("type", JString "object")])])
                   true (Some 200%Z) (Some 0%Z) None (JNumber 0)]).
  { vm_compute in R. inversion R. reflexivity. }
  rewrite E in I. destruct I as [<-|[]].
  rewrite E in H.
  refine (proj1 (H _ 200%Z (or_introl eq_refl) eq_refl) _ _).
  - left. reflexivity.
  - right. reflexivity.
Defined.

(** The same answer with a truthy body is checked, and the validator's
    verdict turns the result into a failure. *)
Example truthy_body_is_checked :
  let host := fixed_host 200 (JNumber 1) in
  let endpoint :=
    plain_endpoint "/count" GET []
      [Response.mk 200 "OK" JSON (JObject [("type", JString "object")])] in
  let config :=
    TestConfig.mk "http://localhost:3000" None None (Some true) None in
  option_map (map EndpointTestResult.success)
             (Testers.report [endpoint] config tt) = Some [false].
Proof. reflexivity. Qed.

(* ===================================================================== *)
(** ** Properties of validation *)
(* ===================================================================== *)

Section ValidationFacts.
Import Schema.

Lemma forEach_push_flat_map {A B : Type} (step : A -> option B) (xs : list A) :
  forEach_push step xs =
  flat_map (fun x => match step x with Some e => [e] | None => [] end) xs.
Proof.
  unfold forEach_push.
  enough (H : forall out,
             fold_left (fun (out : list B) x =>
                          match step x with
                          | Some e => (out ++ [e])%list
                          | None => out
                          end) xs out
             = (out ++ flat_map (fun x => match step x with
                                          | Some e => [e]
                                          | None => []
                                          end) xs)%list)
    by apply (H []).
  induction xs as [|x xs IH]; intros out; cbn [fold_left flat_map].
  - rewrite app_nil_r. reflexivity.
  - rewrite IH. destruct (step x); [rewrite <- app_assoc|]; reflexivity.
Qed.

Lemma type_error_mismatch params p :
  type_error params p =
  if is_mismatch params p then Some (mismatch_violation params p) else None.
Proof.
  unfold type_error, is_mismatch, has_type, mismatch_violation, expected_text,
    violation.
  destruct (is_defined (get params (Param.name p))); [|reflexivity].
  cbn [andb].
  destruct ((Param.type p =? "number") || (Param.type p =? "integer")).
  { destruct (get params (Param.name p)); reflexivity. }
  destruct (Param.type p =? "boolean").
  { destruct (get params (Param.name p)); reflexivity. }
  destruct (Param.type p =? "string").
  { destruct (get params (Param.name p)); reflexivity. }
  destruct (Param.type p =? "array").
  { destruct (get params (Param.name p)); reflexivity. }
  destruct (Param.type p =? "object"); [|reflexivity].
  destruct (get params (Param.name p)); reflexivity.
Qed.

Lemma missingParams_eq params (declared : list Param.t) :
  forEach_push
    (fun param =>
       if is_defined (get params (Param.name param)) then None
       else Some (Param.name param))
    (filter Param.required declared)
  = map Param.name (filter (is_missing params) declared).
Proof.
  rewrite forEach_push_flat_map. unfold is_missing.
  induction declared as [|p declared IH]; [reflexivity|].
  cbn [filter]. destruct (Param.required p); cbn [andb flat_map filter].
  - rewrite IH. destruct (is_defined _); reflexivity.
  - exact IH.
Qed.

Lemma typeErrors_eq params (declared : list Param.t) :
  forEach_push (type_error params) declared
  = map (mismatch_violation params) (filter (is_mismatch params) declared).
Proof.
  rewrite forEach_push_flat_map.
  induction declared as [|p declared IH]; [reflexivity|].
  cbn [flat_map filter]. rewrite IH, type_error_mismatch.
  destruct (is_mismatch params p); reflexivity.
Qed.

Lemma nonempty_length {A : Type} (xs : list A) :
  (0 <? List.length xs)%nat = negb (match xs with [] => true | _ => false end).
Proof. destruct xs; reflexivity. Qed.

End ValidationFacts.

(** C8: evaluation at the failing input.  A required parameter is taken
    to be supplied when reading its name from the supplied values yields
    something, and on a plain object that read also finds the members every
    object inherits.  With nothing supplied, a required parameter named
    [constructor] is therefore not reported as missing: it is type-checked
    against the inherited function (and passes when its declared type is
    not a checked one), where a required parameter of any other name is
    reported. *)
Theorem validateRequestParams_inherited_name :
  let endpoint :=
    plain_endpoint "/things" GET [required_param "constructor" "string"] [] in
  let unchecked :=
    plain_endpoint "/things" GET [required_param "toString" "uuid"] [] in
  let ordinary :=
    plain_endpoint "/things" GET [required_param "id" "string"] [] in
  override (Some []) "constructor" = None /\
  Schema.validateRequestParams endpoint []
  = SchemaValidationResult.mk endpoint false
      (Some [JObject [("message",
                       JString "Parameter constructor should be a string, got function")]]) /\
  Schema.validateRequestParams endpoint []
  <> SchemaValidationResult.mk endpoint false
       (Some [JObject [("message",
                        JString "Missing required parameter: constructor")]]) /\
  Schema.validateRequestParams unchecked []
  = SchemaValidationResult.mk unchecked true None /\
  Schema.validateRequestParams ordinary []
  = SchemaValidationResult.mk ordinary false
      (Some [JObject [("message", JString "Missing required parameter: id")]]).
Proof. cbv zeta. repeat split. discriminate. Qed.

(** X27: [validateRequestParams], with "supplied" read as the code reads
    it (reading the name from the supplied values yields something other
    than [undefined]).  When some required parameter is not supplied, it
    reports exactly one "missing" violation per such parameter and nothing
    else (no type check); otherwise one violation per declared parameter
    whose supplied value has the wrong runtime type for a declared type
    string, number/integer, boolean, array or object (an array is not an
    object, nor is [null]), and it is valid exactly when there is no such
    parameter. *)
Theorem validateRequestParams_rules
        (endpoint : ApiEndpoint.t) (params : list (string * JSValue)) :
  let declared := ApiEndpoint.parameters endpoint in
  let missing := filter (is_missing params) declared in
  let mismatched := filter (is_mismatch params) declared in
  let result := Schema.validateRequestParams endpoint params in
  SchemaValidationResult.endpoint result = endpoint /\
  (missing <> [] ->
   SchemaValidationResult.valid result = false /\
   SchemaValidationResult.errors result = Some (map missing_violation missing)) /\
  (missing = [] ->
   (SchemaValidationResult.valid result = true <-> mismatched = []) /\
   (mismatched = [] -> SchemaValidationResult.errors result = None) /\
   (mismatched <> [] ->
    SchemaValidationResult.errors result
    = Some (map (mismatch_violation params) mismatched))).
Proof.
  cbv zeta. unfold Schema.validateRequestParams.
  rewrite missingParams_eq, typeErrors_eq, !length_map, !nonempty_length.
  destruct (filter (is_missing params) (ApiEndpoint.parameters endpoint))
    as [|m ms] eqn:M; cbn [negb].
  - split; [|split].
    + destruct (filter (is_mismatch params) _); reflexivity.
    + intros N. exfalso. apply N. reflexivity.
    + intros _.
      destruct (filter (is_mismatch params) (ApiEndpoint.parameters endpoint))
        as [|t ts]; cbn [negb SchemaValidationResult.valid
                              SchemaValidationResult.errors].
      * split; [tauto|]. split; [reflexivity|].
        intros N. exfalso. apply N. reflexivity.
      * split; [split; discriminate|]. split; [discriminate|reflexivity].
  - split; [reflexivity|]. split; [|discriminate].
    intros _. cbn [SchemaValidationResult.valid SchemaValidationResult.errors].
    split; [reflexivity|]. rewrite map_map. reflexivity.
Qed.

(** The example of the specification (two required parameters, nothing
    supplied), and a supplied array where an object is declared. *)
Lemma validateRequestParams_rules_witness :
  let two := plain_endpoint "/things" GET
               [required_param "a" "string"; required_param "b" "string"] [] in
  let one := plain_endpoint "/things" GET [required_param "o" "object"] [] in
  SchemaValidationResult.errors (Schema.validateRequestParams two [])
  = Some [JObject [("message", JString "Missing required parameter: a")];
          JObject [("message", JString "Missing required parameter: b")]] /\
  SchemaValidationResult.errors
    (Schema.validateRequestParams one [("o", JArray [])])
  = Some [JObject [("message",
                    JString "Parameter o should be an object, got object")]] /\
  SchemaValidationResult.valid
    (Schema.validateRequestParams one [("o", JObject [])]) = true.
Proof.
  cbv zeta. split; [|split].
  - refine (proj2 (proj1 (proj2 (validateRequestParams_rules
             (plain_endpoint "/things" GET
                [required_param "a" "string"; required_param "b" "string"] [])
             [])) _)).
    cbn. discriminate.
  - refine (proj2 (proj2 (proj2 (proj2 (validateRequestParams_rules
             (plain_endpoint "/things" GET [required_param "o" "object"] [])
             [("o", JArray [])])) eq_refl)) _).
    cbn. discriminate.
  - refine (proj2 (proj1 (proj2 (proj2 (validateRequestParams_rules
             (plain_endpoint "/things" GET [required_param "o" "object"] [])
             [("o", JObject [])])) eq_refl)) eq_refl).
Defined.

(** C9: [validateResponseSchema] answers [valid = true] when no declared
    response has the observed status code, and when the matching one has no
    (truthy) schema; when compiling the declared schema throws, it answers
    [valid = false] with exactly one violation, whose message is the thrown
    error's message (["Unknown error"] if what was thrown is not an [Error]).
    Being a function into results, it never propagates the fault. *)
Theorem validateResponseSchema_rules {host : Host}
        (endpoint : ApiEndpoint.t) (statusCode : Z) (responseBody : JSValue) :
  let result := Schema.validateResponseSchema endpoint statusCode responseBody in
  let matching :=
    find (fun r => (Response.statusCode r =? statusCode)%Z)
         (ApiEndpoint.responses endpoint) in
  ((forall r, In r (ApiEndpoint.responses endpoint) ->
              Response.statusCode r <> statusCode) ->
   result = SchemaValidationResult.mk endpoint true None) /\
  (forall definition,
      matching = Some definition ->
      truthy (Response.schema definition) = false ->
      result = SchemaValidationResult.mk endpoint true None) /\
  (forall definition error,
      matching = Some definition ->
      truthy (Response.schema definition) = true ->
      Ajv_compile (Response.schema definition) = Throws error ->
      result = SchemaValidationResult.mk endpoint false
                 (Some [JObject [("message", JString (error_message error))]])) /\
  (forall message, error_message (ErrorInstance message) = message).
Proof.
  cbv zeta. unfold Schema.validateResponseSchema.
  split; [|split; [|split]].
  - intros N.
    destruct (find _ _) as [definition|] eqn:F; [|reflexivity].
    exfalso. apply find_some in F. destruct F as [I E].
    apply Z.eqb_eq in E. exact (N definition I E).
  - intros definition F T. rewrite F, T. reflexivity.
  - intros definition error F T C. rewrite F, T, C. reflexivity.
  - reflexivity.
Qed.

Lemma validateResponseSchema_rules_witness :
  let bad := Response.mk 200 "OK" JSON (JObject [("type", JNumber 5)]) in
  let bare := Response.mk 204 "No content" JSON JUndefined in
  let endpoint := plain_endpoint "/things" GET [] [bad; bare] in
  @Schema.validateResponseSchema strict_host endpoint 404 (JObject [])
  = SchemaValidationResult.mk endpoint true None /\
  @Schema.validateResponseSchema strict_host endpoint 204 (JObject [])
  = SchemaValidationResult.mk endpoint true None /\
  @Schema.validateResponseSchema strict_host endpoint 200 (JObject [])
  = SchemaValidationResult.mk endpoint false
      (Some [JObject [("message",
                       JString "schema is invalid: data/type must be string")]]).
Proof.
  cbv zeta. split; [|split].
  - apply (proj1 (@validateResponseSchema_rules strict_host
                    (plain_endpoint "/things" GET []
                       [Response.mk 200 "OK" JSON (JObject [("type", JNumber 5)]);
                        Response.mk 204 "No content" JSON JUndefined])
                    404 (JObject []))).
    intros r [<-|[<-|[]]]; discriminate.
  - apply (proj1 (proj2 (@validateResponseSchema_rules strict_host
                    (plain_endpoint "/things" GET []
                       [Response.mk 200 "OK" JSON (JObject [("type", JNumber 5)]);
                        Response.mk 204 "No content" JSON JUndefined])
                    204 (JObject [])))
             (Response.mk 204 "No content" JSON JUndefined)); reflexivity.
  - apply (proj1 (proj2 (proj2 (@validateResponseSchema_rules strict_host
                    (plain_endpoint "/things" GET []
                       [Response.mk 200 "OK" JSON (JObject [("type", JNumber 5)]);
                        Response.mk 204 "No content" JSON JUndefined])
                    200 (JObject []))))
             (Response.mk 200 "OK" JSON (JObject [("type", JNumber 5)]))
             (ErrorInstance "schema is invalid: data/type must be string"));
      reflexivity.
Defined.

(* ===================================================================== *)
(** ** Facts about the string built-ins *)
(* ===================================================================== *)

Section StringFacts.

Lemma prefix_char (c a : ascii) (s : string) :
  prefix (String c EmptyString) (String a s) = (a =? c)%char.
Proof.
  cbn [prefix]. destruct (ascii_dec c a) as [E|N].
  - subst. rewrite Ascii.eqb_refl. destruct s; reflexivity.
  - destruct (a =? c)%char eqn:E; [|reflexivity].
    apply Ascii.eqb_eq in E. subst. contradiction.
Qed.

Lemma prefix_cons (c a : ascii) (t s : string) :
  prefix (String c t) (String a s) = (a =? c)%char && prefix t s.
Proof.
  cbn [prefix]. destruct (ascii_dec c a) as [E|N].
  - subst. rewrite Ascii.eqb_refl. reflexivity.
  - destruct (a =? c)%char eqn:E; [|reflexivity].
    apply Ascii.eqb_eq in E. subst. contradiction.
Qed.

Lemma prefix_nil (s : string) : prefix EmptyString s = true.
Proof. destruct s; reflexivity. Qed.

Lemma prefix_app (t s : string) : prefix t (t ++ s) = true.
Proof.
  induction t as [|c t IH]; [apply prefix_nil|].
  cbn [append]. rewrite prefix_cons, Ascii.eqb_refl. exact IH.
Qed.

Lemma includes_cons (t : string) (a : ascii) (s : string) :
  includes t (String a s) = prefix t (String a s) || includes t s.
Proof. reflexivity. Qed.

Lemma includes_char (c : ascii) (s : string) :
  includes (String c EmptyString) s = mem_char c s.
Proof.
  induction s as [|a s IH]; [reflexivity|].
  rewrite includes_cons, prefix_char, IH. reflexivity.
Qed.

Lemma includes_app_r (t p s : string) :
  includes t s = true -> includes t (p ++ s) = true.
Proof.
  intros H. induction p as [|a p IH]; [exact H|].
  cbn [append]. rewrite includes_cons, IH. apply orb_true_r.
Qed.

Lemma includes_at (t p s : string) : includes t (p ++ t ++ s) = true.
Proof.
  apply includes_app_r. destruct (t ++ s) as [|a u] eqn:E.
  - destruct t; [reflexivity|discriminate E].
  - rewrite includes_cons, <- E, prefix_app. reflexivity.
Qed.

Lemma mem_char_app (c : ascii) (s u : string) :
  mem_char c (s ++ u) = mem_char c s || mem_char c u.
Proof.
  induction s as [|a s IH]; [reflexivity|].
  cbn [append mem_char]. rewrite IH, orb_assoc. reflexivity.
Qed.

Lemma append_nil_r (s : string) : s ++ EmptyString = s.
Proof. induction s as [|a s IH]; [reflexivity|]. cbn. rewrite IH. reflexivity. Qed.

Lemma append_assoc (s u v : string) : (s ++ u) ++ v = s ++ u ++ v.
Proof. induction s as [|a s IH]; [reflexivity|]. cbn. rewrite IH. reflexivity. Qed.



(** [endsWith "/"], one character at a time. *)
Lemma endsWith_slash_cons (a b : ascii) (s : string) :
  endsWith "/" (String a (String b s)) = endsWith "/" (String b s).
Proof.
  unfold endsWith. cbn [String.length Nat.leb Nat.sub andb].
  rewrite !Nat.sub_0_r. reflexivity.
Qed.

Lemma endsWith_slash_one (a : ascii) :
  endsWith "/" (String a EmptyString) = (a =? "/")%char.
Proof.
  unfold endsWith. cbn. destruct (a =? "/")%char eqn:E.
  - apply Ascii.eqb_eq in E. subst. reflexivity.
  - destruct (String a EmptyString =? "/") eqn:F; [|reflexivity].
    apply String.eqb_eq in F. inversion F. subst.
    rewrite Ascii.eqb_refl in E. discriminate E.
Qed.

(** A text that ends with a slash is some text followed by that slash. *)
Lemma endsWith_slash_split (s : string) :
  endsWith "/" s = true ->
  s = substring 0 (String.length s - 1) s ++ "/".
Proof.
  induction s as [|a s IH]; [discriminate|].
  destruct s as [|b s].
  - rewrite endsWith_slash_one. intros E. apply Ascii.eqb_eq in E. subst.
    reflexivity.
  - rewrite endsWith_slash_cons. intros E. specialize (IH E).
    cbn [String.length Nat.sub] in *. rewrite Nat.sub_0_r in *.
    cbn [substring]. cbn [append]. f_equal. exact IH.
Qed.

Lemma endsWith_slash_app (s : string) : endsWith "/" (s ++ "/") = true.
Proof.
  induction s as [|a s IH]; [reflexivity|].
  cbn [append]. destruct (s ++ "/") as [|b u] eqn:E.
  - destruct s; discriminate E.
  - rewrite endsWith_slash_cons. exact IH.
Qed.

End StringFacts.

(* ===================================================================== *)
(** ** Properties of path normalisation *)
(* ===================================================================== *)

Section NormalizeFacts.
Import Analyzers.

Lemma collapse_keeps_head (s : string) :
  startsWith "/" (collapse_slashes s) = startsWith "/" s.
Proof.
  unfold startsWith. induction s as [|c s IH]; [reflexivity|].
  cbn [collapse_slashes]. unfold startsWith in *.
  destruct ((c =? "/")%char && prefix "/" s) eqn:E.
  - apply andb_true_iff in E. destruct E as [E1 E2].
    rewrite IH, E2, prefix_char. symmetry. exact E1.
  - rewrite !prefix_char. reflexivity.
Qed.

Lemma double_slash_cons (c : ascii) (s : string) :
  includes "//" (String c s)
  = ((c =? "/")%char && startsWith "/" s) || includes "//" s.
Proof. rewrite includes_cons, prefix_cons. reflexivity. Qed.

Lemma collapse_no_double_slash (s : string) :
  includes "//" (collapse_slashes s) = false.
Proof.
  induction s as [|c s IH]; [reflexivity|].
  cbn [collapse_slashes].
  destruct ((c =? "/")%char && startsWith "/" s) eqn:E; [exact IH|].
  rewrite double_slash_cons, collapse_keeps_head, E, IH. reflexivity.
Qed.

Lemma collapse_fixed (s : string) :
  includes "//" s = false -> collapse_slashes s = s.
Proof.
  induction s as [|c s IH]; [reflexivity|].
  rewrite double_slash_cons. intros H. apply orb_false_iff in H.
  destruct H as [H1 H2]. cbn [collapse_slashes]. rewrite H1, (IH H2).
  reflexivity.
Qed.

Lemma collapse_length (s : string) :
  String.length (collapse_slashes s) <= String.length s.
Proof.
  induction s as [|c s IH]; [reflexivity|].
  cbn [collapse_slashes]. destruct (_ && _); cbn [String.length]; lia.
Qed.

Lemma strip_no_trailing_slash (s : string) :
  includes "//" s = false -> endsWith "/" (strip_trailing_slash s) = false.
Proof.
  induction s as [|a s IH]; [reflexivity|].
  destruct s as [|b s].
  - intros _. cbn [strip_trailing_slash].
    destruct (a =? "/")%char eqn:E; [reflexivity|].
    rewrite endsWith_slash_one. exact E.
  - rewrite double_slash_cons. intros H. apply orb_false_iff in H.
    destruct H as [H1 H2]. specialize (IH H2).
    change (strip_trailing_slash (String a (String b s)))
      with (String a (strip_trailing_slash (String b s))).
    destruct (strip_trailing_slash (String b s)) as [|d u] eqn:S.
    + (* the rest was a lone slash *)
      destruct s as [|e s]; cbn [strip_trailing_slash] in S.
      * destruct (b =? "/")%char eqn:B; [|discriminate S].
        unfold startsWith in H1. rewrite prefix_char, B, andb_true_r in H1.
        rewrite endsWith_slash_one. exact H1.
      * discriminate S.
    + rewrite endsWith_slash_cons. exact IH.
Qed.

Lemma strip_fixed (s : string) :
  endsWith "/" s = false -> strip_trailing_slash s = s.
Proof.
  induction s as [|a s IH]; [reflexivity|].
  destruct s as [|b s].
  - rewrite endsWith_slash_one. intros E. cbn [strip_trailing_slash].
    rewrite E. reflexivity.
  - rewrite endsWith_slash_cons. intros E.
    change (strip_trailing_slash (String a (String b s)))
      with (String a (strip_trailing_slash (String b s))).
    rewrite (IH E). reflexivity.
Qed.

Lemma strip_keeps_no_double_slash (s : string) :
  includes "//" s = false -> includes "//" (strip_trailing_slash s) = false.
Proof.
  induction s as [|a s IH]; [reflexivity|].
  destruct s as [|b s].
  - intros _. cbn [strip_trailing_slash].
    destruct (a =? "/")%char; [reflexivity|].
    rewrite double_slash_cons, andb_false_r. reflexivity.
  - rewrite double_slash_cons. intros H. apply orb_false_iff in H.
    destruct H as [H1 H2]. specialize (IH H2).
    change (strip_trailing_slash (String a (String b s)))
      with (String a (strip_trailing_slash (String b s))).
    rewrite double_slash_cons, IH, orb_false_r.
    apply andb_false_iff in H1. apply andb_false_iff.
    destruct H1 as [H1|H1]; [left; exact H1|].
    unfold startsWith in *. rewrite prefix_char in H1.
    right. destruct (strip_trailing_slash (String b s)) as [|d u] eqn:S;
      [reflexivity|].
    rewrite prefix_char.
    destruct s as [|e s]; cbn [strip_trailing_slash] in S.
    + destruct (b =? "/")%char eqn:B; [discriminate S|].
      inversion S. subst. exact B.
    + inversion S. subst. exact H1.
Qed.

Lemma strip_keeps_head (s : string) :
  startsWith "/" s = true ->
  strip_trailing_slash s = EmptyString
  \/ startsWith "/" (strip_trailing_slash s) = true.
Proof.
  destruct s as [|a [|b s]]; [discriminate| |].
  - intros H. cbn [strip_trailing_slash]. unfold startsWith in H.
    rewrite prefix_char in H. rewrite H. left. reflexivity.
  - intros H. right.
    change (strip_trailing_slash (String a (String b s)))
      with (String a (strip_trailing_slash (String b s))).
    unfold startsWith in *. rewrite prefix_char in *. exact H.
Qed.

Lemma nest_normalizePath_facts (path : string) :
  includes "//" (Nest.normalizePath path) = false /\
  endsWith "/" (Nest.normalizePath path) = false.
Proof.
  unfold Nest.normalizePath.
  pose proof (collapse_no_double_slash path) as D.
  split; [apply strip_keeps_no_double_slash|apply strip_no_trailing_slash];
    exact D.
Qed.

End NormalizeFacts.

(** X1: the Express analyzer's [normalizePath] leaves no doubled slash in
    its result, returns a path without doubled slash unchanged (so it is
    idempotent), and never makes a path longer; the full path of a nested
    route, a base path joined with a route path, has no doubled slash. *)
Theorem express_normalizePath_collapses (path : string) :
  includes "//" (Analyzers.Express.normalizePath path) = false /\
  (includes "//" path = false -> Analyzers.Express.normalizePath path = path) /\
  Analyzers.Express.normalizePath (Analyzers.Express.normalizePath path)
  = Analyzers.Express.normalizePath path /\
  String.length (Analyzers.Express.normalizePath path) <= String.length path /\
  (forall routePath,
      includes "//" (Analyzers.Express.fullPath path routePath) = false).
Proof.
  unfold Analyzers.Express.fullPath, Analyzers.Express.normalizePath.
  split; [apply collapse_no_double_slash|].
  split; [apply collapse_fixed|].
  split; [apply collapse_fixed, collapse_no_double_slash|].
  split; [apply collapse_length|].
  intros routePath. apply collapse_no_double_slash.
Qed.

Lemma express_normalizePath_collapses_witness :
  Analyzers.Express.normalizePath "/api/users" = "/api/users".
Proof.
  apply (proj1 (proj2 (express_normalizePath_collapses "/api/users"))).
  reflexivity.
Defined.

(** X2: the Nest analyzer's [normalizePath] leaves neither a doubled slash
    nor a trailing slash in its result, and is idempotent. *)
Theorem nest_normalizePath_canonical (path : string) :
  includes "//" (Analyzers.Nest.normalizePath path) = false /\
  endsWith "/" (Analyzers.Nest.normalizePath path) = false /\
  Analyzers.Nest.normalizePath (Analyzers.Nest.normalizePath path)
  = Analyzers.Nest.normalizePath path.
Proof.
  destruct (nest_normalizePath_facts path) as [D T].
  split; [exact D|]. split; [exact T|].
  unfold Analyzers.Nest.normalizePath in *.
  rewrite (collapse_fixed _ D). apply strip_fixed. exact T.
Qed.

(** X3: the full path the Nest analyzer gives a route handler is empty or
    starts with a slash; it has no doubled slash and no trailing slash,
    whatever the controller and route paths are. *)
Theorem nest_fullPath_shape (controllerPath routePath : string) :
  let fullPath := Analyzers.Nest.fullPath controllerPath routePath in
  (fullPath = EmptyString \/ startsWith "/" fullPath = true) /\
  includes "//" fullPath = false /\
  endsWith "/" fullPath = false.
Proof.
  cbv zeta. unfold Analyzers.Nest.fullPath.
  destruct (nest_normalizePath_facts
              ("/" ++ controllerPath ++ "/" ++ routePath)) as (D & T).
  split; [|split; assumption].
  unfold Analyzers.Nest.normalizePath. apply strip_keeps_head.
  rewrite collapse_keeps_head. apply (prefix_app "/").
Qed.

(* ===================================================================== *)
(** ** Properties of the logger *)
(* ===================================================================== *)

(** X4: a logger method writes its line exactly when its severity does not
    exceed the logger's level: errors are written at every level, a fresh
    logger writes everything but debug lines, and raising the level never
    silences or changes a line that was written before. *)
Theorem logger_threshold :
  (forall severity this message args,
      log_at severity this message args <> None <->
      (Logger.level_value severity <= Logger.level_value (Logger.level this))%Z) /\
  (forall this message args, Logger.error this message args <> None) /\
  (forall message args,
      Logger.debug Logger.create message args = None /\
      Logger.info Logger.create message args <> None) /\
  (forall severity low high this message args,
      (Logger.level_value low <= Logger.level_value high)%Z ->
      log_at severity (Logger.setLevel low this) message args <> None ->
      log_at severity (Logger.setLevel high this) message args
      = log_at severity (Logger.setLevel low this) message args).
Proof.
  split; [|split; [|split]].
  - intros severity [level] message args.
    destruct severity, level; cbn; split; intros H;
      solve [discriminate | lia | exfalso; apply H; reflexivity].
  - intros [level] message args. destruct level; discriminate.
  - intros message args. split; [reflexivity|discriminate].
  - intros severity low high this message args L H.
    destruct severity, low, high; cbn in *;
      solve [reflexivity | lia | exfalso; apply H; reflexivity].
Qed.

Lemma logger_threshold_witness :
  Logger.warn (Logger.setLevel Logger.DEBUG Logger.create) "slow" []
  = Logger.warn (Logger.setLevel Logger.WARN Logger.create) "slow" [].
Proof.
  apply (proj2 (proj2 (proj2 logger_threshold))
           Logger.WARN Logger.WARN Logger.DEBUG).
  - cbn. lia.
  - discriminate.
Defined.

(* ===================================================================== *)
(** ** Properties of the Swagger helpers *)
(* ===================================================================== *)

Section SwaggerFacts.
Import SwaggerGenerator.

Lemma mem_char_replace_char (c a d : ascii) (s : string) :
  (d =? c)%char = false ->
  (a =? c)%char = true \/ mem_char c s = false ->
  mem_char c (replace_char a d s) = false.
Proof.
  intros D H. induction s as [|b s IH]; [reflexivity|].
  cbn [replace_char mem_char].
  destruct H as [H|H].
  - apply Ascii.eqb_eq in H. subst a.
    rewrite (IH (or_introl (Ascii.eqb_refl c))).
    destruct (b =? c)%char eqn:B; [rewrite D|rewrite B]; reflexivity.
  - cbn [mem_char] in H. apply orb_false_iff in H. destruct H as [H1 H2].
    rewrite (IH (or_intror H2)).
    destruct (b =? a)%char; [rewrite D|rewrite H1]; reflexivity.
Qed.

Lemma mem_char_remove_chars (c : ascii) (matches : ascii -> bool) (s : string) :
  matches c = true \/ mem_char c s = false ->
  mem_char c (remove_chars matches s) = false.
Proof.
  intros H. induction s as [|b s IH]; [reflexivity|].
  cbn [remove_chars].
  destruct H as [H|H].
  - specialize (IH (or_introl H)).
    destruct (matches b) eqn:M; [exact IH|].
    cbn [mem_char]. rewrite IH, orb_false_r.
    destruct (b =? c)%char eqn:E; [|reflexivity].
    apply Ascii.eqb_eq in E. subst. rewrite H in M. discriminate M.
  - cbn [mem_char] in H. apply orb_false_iff in H. destruct H as [H1 H2].
    specialize (IH (or_intror H2)).
    destruct (matches b); [exact IH|].
    cbn [mem_char]. rewrite IH, H1. reflexivity.
Qed.

Lemma lower_ascii_punctuation (c a : ascii) :
  In c ["/"; ":"; "-"; "{"; "}"]%char ->
  (lower_ascii a =? c)%char = (a =? c)%char.
Proof.
  intros I. cbn in I.
  destruct a as [[] [] [] [] [] [] [] []];
    destruct I as [<-|[<-|[<-|[<-|[<-|[]]]]]]; reflexivity.
Qed.

Lemma mem_char_toLowerCase (c : ascii) (s : string) :
  In c ["/"; ":"; "-"; "{"; "}"]%char ->
  mem_char c (toLowerCase s) = mem_char c s.
Proof.
  intros I. induction s as [|a s IH]; [reflexivity|].
  cbn [toLowerCase mem_char]. rewrite IH, (lower_ascii_punctuation c a I).
  reflexivity.
Qed.

Lemma In_Set_add (x y : string) (set : list string) :
  In y (Set_add x set) <-> y = x \/ In y set.
Proof.
  unfold Set_add. destruct (existsb (String.eqb x) set) eqn:E.
  - split; [intros H; right; exact H|].
    intros [->|H]; [|exact H].
    apply existsb_exists in E. destruct E as (z & I & Z).
    apply String.eqb_eq in Z. subst. exact I.
  - rewrite in_app_iff. cbn. split.
    + intros [H|[H|[]]]; [right; exact H|left; symmetry; exact H].
    + intros [->|H]; [right; left; reflexivity|left; exact H].
Qed.

Lemma NoDup_Set_add (x : string) (set : list string) :
  NoDup set -> NoDup (Set_add x set).
Proof.
  intros N. unfold Set_add. destruct (existsb (String.eqb x) set) eqn:E;
    [exact N|].
  apply NoDup_app; [exact N|repeat constructor; intros []|].
  intros y I [Y|[]]. subst y.
  assert (T : existsb (String.eqb x) set = true).
  { apply existsb_exists. exists x. split; [exact I|apply String.eqb_refl]. }
  rewrite T in E. discriminate E.
Qed.

End SwaggerFacts.

(** X5: the path part of an operation id never contains a slash, a colon,
    a hyphen or a brace: an operation id contains one of these characters
    exactly when the method name of the endpoint does.  None of the seven
    members of [HttpMethod] does; a method name that a framework reports
    beyond them (such as [M-SEARCH]) brings its hyphen into the id. *)
Theorem generateOperationId_characters (method path : string) (c : ascii) :
  In c ["/"; ":"; "-"; "{"; "}"]%char ->
  includes (String c EmptyString)
           (SwaggerGenerator.generateOperationId method path)
  = includes (String c EmptyString) method /\
  forall m : HttpMethod,
    includes (String c EmptyString)
             (SwaggerGenerator.generateOperationId (method_name m) path) = false.
Proof.
  intros I.
  assert (G : forall method,
             mem_char c (SwaggerGenerator.generateOperationId method path)
             = mem_char c method).
  { intros m. unfold SwaggerGenerator.generateOperationId.
    rewrite !mem_char_app, (mem_char_toLowerCase c m I).
    assert (U : mem_char c "_" = false).
    { cbn in I; destruct I as [<-|[<-|[<-|[<-|[<-|[]]]]]]; reflexivity. }
    rewrite U. cbn [orb].
    enough (P : mem_char c
                  (SwaggerGenerator.remove_chars
                     (fun a => (a =? "{")%char || (a =? "}")%char)
                     (SwaggerGenerator.replace_char "-" "_"
                        (SwaggerGenerator.remove_chars
                           (fun a => (a =? ":")%char)
                           (SwaggerGenerator.replace_char "/" "_"
                              (SwaggerGenerator.strip_leading_slash path)))))
                = false)
      by (rewrite P; apply orb_false_r).
    cbn in I. destruct I as [<-|[<-|[<-|[<-|[<-|[]]]]]].
    - apply mem_char_remove_chars. right.
      apply mem_char_replace_char; [reflexivity|]. right.
      apply mem_char_remove_chars. right.
      apply mem_char_replace_char; [reflexivity|]. left. reflexivity.
    - apply mem_char_remove_chars. right.
      apply mem_char_replace_char; [reflexivity|]. right.
      apply mem_char_remove_chars. left. reflexivity.
    - apply mem_char_remove_chars. right.
      apply mem_char_replace_char; [reflexivity|]. left. reflexivity.
    - apply mem_char_remove_chars. left. reflexivity.
    - apply mem_char_remove_chars. left. reflexivity. }
  rewrite !includes_char. split; [apply G|].
  intros m. rewrite includes_char, G.
  destruct m; cbn in I; destruct I as [<-|[<-|[<-|[<-|[<-|[]]]]]]; reflexivity.
Qed.

Lemma generateOperationId_characters_witness :
  includes "-" (SwaggerGenerator.generateOperationId "GET" "/user-profiles/:id")
  = false /\
  includes "-" (SwaggerGenerator.generateOperationId "M-SEARCH" "/devices")
  = true.
Proof.
  split.
  - apply (proj2 (generateOperationId_characters
                    "GET" "/user-profiles/:id" "-"%char
                    (or_intror (or_intror (or_introl eq_refl)))) GET).
  - rewrite (proj1 (generateOperationId_characters
                      "M-SEARCH" "/devices" "-"%char
                      (or_intror (or_intror (or_introl eq_refl))))).
    reflexivity.
Defined.

(** X6: the content types produced for a list of responses are listed
    without repetition, and a content type is listed exactly when some
    response has a format of that content type (a binary response counts
    as [application/json]). *)
Theorem getProducesFromResponses_members (responses : list Response.t) :
  NoDup (SwaggerGenerator.getProducesFromResponses responses) /\
  forall t,
    In t (SwaggerGenerator.getProducesFromResponses responses) <->
    exists r, In r responses /\ content_type (Response.format r) = t.
Proof.
  unfold SwaggerGenerator.getProducesFromResponses.
  enough (H : forall produces,
             NoDup produces ->
             NoDup (fold_left
                      (fun produces response =>
                         match Response.format response with
                         | JSON => SwaggerGenerator.Set_add "application/json" produces
                         | XML => SwaggerGenerator.Set_add "application/xml" produces
                         | TEXT => SwaggerGenerator.Set_add "text/plain" produces
                         | HTML => SwaggerGenerator.Set_add "text/html" produces
                         | _ => SwaggerGenerator.Set_add "application/json" produces
                         end) responses produces) /\
             forall t,
               In t (fold_left
                       (fun produces response =>
                          match Response.format response with
                          | JSON => SwaggerGenerator.Set_add "application/json" produces
                          | XML => SwaggerGenerator.Set_add "application/xml" produces
                          | TEXT => SwaggerGenerator.Set_add "text/plain" produces
                          | HTML => SwaggerGenerator.Set_add "text/html" produces
                          | _ => SwaggerGenerator.Set_add "application/json" produces
                          end) responses produces) <->
               In t produces \/
               exists r, In r responses /\ content_type (Response.format r) = t).
  { destruct (H [] (NoDup_nil _)) as [N M]. split; [exact N|].
    intros t. rewrite M. split; [intros [[]|E]; exact E|intros E; right; exact E]. }
  induction responses as [|r responses IH]; intros produces N.
  - split; [exact N|]. intros t. cbn. split; [tauto|].
    intros [H|(r & [] & _)]. exact H.
  - cbn [fold_left].
    assert (S : match Response.format r with
                | JSON => SwaggerGenerator.Set_add "application/json" produces
                | XML => SwaggerGenerator.Set_add "application/xml" produces
                | TEXT => SwaggerGenerator.Set_add "text/plain" produces
                | HTML => SwaggerGenerator.Set_add "text/html" produces
                | _ => SwaggerGenerator.Set_add "application/json" produces
                end
                = SwaggerGenerator.Set_add (content_type (Response.format r))
                                           produces)
      by (destruct (Response.format r); reflexivity).
    rewrite S.
    destruct (IH _ (NoDup_Set_add (content_type (Response.format r)) _ N))
      as [N' M'].
    split; [exact N'|]. intros t. rewrite M', In_Set_add. split.
    + intros [[->|H]|(r' & I & E)].
      * right. exists r. split; [left; reflexivity|reflexivity].
      * left. exact H.
      * right. exists r'. split; [right; exact I|exact E].
    + intros [H|(r' & [<-|I] & E)].
      * left. right. exact H.
      * left. left. symmetry. exact E.
      * right. exists r'. split; assumption.
Qed.

(* ===================================================================== *)
(** ** Further properties of parseRouteParams *)
(* ===================================================================== *)

Section ParserSoundness.
Import Parser.

Lemma take_word_split (s : string) :
  s = fst (take_word s) ++ snd (take_word s) /\
  all_word (fst (take_word s)) = true.
Proof.
  induction s as [|c s [IH1 IH2]]; [split; reflexivity|].
  cbn [take_word]. destruct (word_char c) eqn:W; [|split; reflexivity].
  destruct (take_word s) as [w r]. cbn [fst snd] in *.
  split; [cbn [append]; f_equal; exact IH1|].
  cbn [all_word]. rewrite W, IH2. reflexivity.
Qed.

Lemma exec_decompose re s w after :
  exec re s = Some (w, after) ->
  w <> EmptyString /\ all_word w = true /\
  exists pre, s = pre ++ placeholder re w ++ after.
Proof.
  induction s as [|c s IH]; [discriminate|].
  assert (K : exec re s = Some (w, after) ->
              w <> EmptyString /\ all_word w = true /\
              exists pre, String c s = pre ++ placeholder re w ++ after).
  { intros H. destruct (IH H) as (N & A & pre & E).
    split; [exact N|]. split; [exact A|].
    exists (String c pre). cbn [append]. f_equal. exact E. }
  destruct (take_word_split s) as [T1 T2].
  cbn [exec]. destruct re.
  - destruct (c =? ":")%char eqn:EC; [|exact K].
    apply Ascii.eqb_eq in EC. subst c.
    destruct (take_word s) as [[|a u] r]; [exact K|].
    cbn [fst snd] in *. intros H. inversion H. subst.
    split; [discriminate|]. split; [exact T2|].
    exists EmptyString. reflexivity.
  - destruct (c =? "{")%char eqn:EC; [|exact K].
    apply Ascii.eqb_eq in EC. subst c.
    destruct (take_word s) as [[|a u] [|d r]]; try exact K.
    destruct (d =? "}")%char eqn:ED; [|exact K].
    apply Ascii.eqb_eq in ED. subst d.
    cbn [fst snd] in *. intros H. inversion H. subst.
    split; [discriminate|]. split; [exact T2|].
    exists EmptyString. cbn [placeholder append].
    rewrite append_assoc. reflexivity.
Qed.

Lemma exec_loop_sound re n :
  forall s, String.length s <= n ->
    forall name, In name (exec_loop re s) ->
      name <> EmptyString /\ all_word name = true /\
      includes (placeholder re name) s = true.
Proof.
  induction n as [|n IH]; intros s L name; rewrite exec_loop_eq;
    destruct (exec re s) as [[w after]|] eqn:E;
    try (intros I; destruct I; fail).
  - apply exec_shrinks in E. lia.
  - pose proof (exec_shrinks _ _ _ _ E) as Sh.
    destruct (exec_decompose _ _ _ _ E) as (N & A & pre & D).
    intros [<-|I].
    + split; [exact N|]. split; [exact A|]. rewrite D. apply includes_at.
    + destruct (IH after ltac:(lia) name I) as (N' & A' & Inc).
      split; [exact N'|]. split; [exact A'|].
      rewrite D, <- append_assoc. apply includes_app_r. exact Inc.
Qed.

Lemma exec_none re s :
  mem_char (match re with ColonParam => ":" | BraceParam => "{" end)%char s
  = false ->
  exec re s = None.
Proof.
  induction s as [|c s IH]; [reflexivity|].
  cbn [mem_char]. intros H. apply orb_false_iff in H. destruct H as [H1 H2].
  cbn [exec]. destruct re; rewrite H1; exact (IH H2).
Qed.

End ParserSoundness.

(** X7: every name [parseRouteParams] returns is non-empty, consists of
    characters of [[a-zA-Z0-9_]] only, and occurs in the path as [:name] or
    as [{name}]. *)
Theorem parseRouteParams_sound (path name : string) :
  In name (Parser.parseRouteParams path) ->
  name <> EmptyString /\
  all_word name = true /\
  (includes (":" ++ name) path = true \/
   includes ("{" ++ name ++ "}") path = true).
Proof.
  unfold Parser.parseRouteParams. rewrite in_app_iff. intros [I|I].
  - destruct (exec_loop_sound Parser.ColonParam _ path (le_n _) name I)
      as (N & A & Inc).
    split; [exact N|]. split; [exact A|]. left. exact Inc.
  - destruct (exec_loop_sound Parser.BraceParam _ path (le_n _) name I)
      as (N & A & Inc).
    split; [exact N|]. split; [exact A|]. right. exact Inc.
Qed.

Lemma parseRouteParams_sound_witness :
  all_word "user_id" = true /\
  (includes ":user_id" "/users/:user_id/posts" = true \/
   includes "{user_id}" "/users/:user_id/posts" = true).
Proof.
  refine (proj2 (parseRouteParams_sound "/users/:user_id/posts" "user_id" _)).
  left. reflexivity.
Defined.

(** X8: a path that contains neither a colon nor an opening brace has no
    parameters; in particular the empty path has none. *)
Theorem parseRouteParams_without_markers (path : string) :
  includes ":" path = false ->
  includes "{" path = false ->
  Parser.parseRouteParams path = [].
Proof.
  rewrite !includes_char. intros C B. unfold Parser.parseRouteParams.
  rewrite (exec_loop_eq Parser.ColonParam), (exec_loop_eq Parser.BraceParam).
  rewrite (exec_none Parser.ColonParam path C),
          (exec_none Parser.BraceParam path B).
  reflexivity.
Qed.

Lemma parseRouteParams_without_markers_witness :
  Parser.parseRouteParams "/health/status" = [].
Proof.
  apply parseRouteParams_without_markers; reflexivity.
Defined.

(* ===================================================================== *)
(** ** Properties of headers and URLs *)
(* ===================================================================== *)

Section RequestFacts.
Import Endpoint.



Lemma replace_keeps_slash (n r s : string) :
  startsWith "/" s = true ->
  startsWith "/" (replace (String ":" n) r s) = true.
Proof.
  unfold startsWith. destruct s as [|a s]; [discriminate|].
  rewrite prefix_char. intros H. apply Ascii.eqb_eq in H. subst a.
  cbn [replace]. rewrite prefix_cons. cbn [Ascii.eqb Bool.eqb andb].
  rewrite prefix_char. reflexivity.
Qed.

Lemma startsWith_slash_app (s u : string) :
  startsWith "/" s = true -> startsWith "/" (s ++ u) = true.
Proof.
  unfold startsWith. destruct s as [|a s]; [discriminate|].
  cbn [append]. rewrite !prefix_char. intros H. exact H.
Qed.

Lemma substring_before_slash (b : string) :
  substring 0 (String.length (b ++ "/") - 1) (b ++ "/") = b.
Proof.
  assert (L : String.length (b ++ "/") - 1 = String.length b).
  { induction b as [|a b IH]; [reflexivity|].
    cbn [append String.length]. destruct (b ++ "/") eqn:E.
    - destruct b; discriminate E.
    - cbn [String.length] in *. lia. }
  rewrite L. clear L. induction b as [|a b IH]; [reflexivity|].
  cbn [append String.length substring]. rewrite IH. reflexivity.
Qed.



End RequestFacts.


Section UrlFacts.
Import Endpoint.


Lemma substitute_keeps_slash (value : Param.t -> string) (params : list Param.t) :
  forall path,
    startsWith "/" path = true ->
    startsWith "/"
      (fold_left (fun path param =>
                    replace (":" ++ Param.name param) (value param) path)
                 params path) = true.
Proof.
  induction params as [|p params IH]; intros path H; [exact H|].
  cbn [fold_left]. apply IH.
  change (":" ++ Param.name p) with (String ":" (Param.name p)).
  apply replace_keeps_slash. exact H.
Qed.

Lemma join_trailing_slash (base path : string) :
  endsWith "/" base = false ->
  startsWith "/" path = true ->
  (if endsWith "/" (base ++ "/") && startsWith "/" path
   then substring 0 (String.length (base ++ "/") - 1) (base ++ "/")
   else base ++ "/") ++ path
  = (if endsWith "/" base && startsWith "/" path
     then substring 0 (String.length base - 1) base
     else base) ++ path.
Proof.
  intros B P. rewrite endsWith_slash_app, P, B, substring_before_slash.
  reflexivity.
Qed.

End UrlFacts.





(** X12: for an endpoint whose path starts with a slash and a base URL
    that does not itself end in a slash, the base URL and the base URL
    followed by one slash give the same URL: [buildUrl] drops that slash at
    the joint.  (It drops one slash only, hence the condition on the base
    URL.) *)
Theorem buildUrl_trailing_slash {host : Host}
        (endpoint : ApiEndpoint.t) (config : TestConfig.t) (base : string) :
  startsWith "/" (ApiEndpoint.path endpoint) = true ->
  endsWith "/" base = false ->
  Endpoint.buildUrl endpoint (with_baseUrl config (base ++ "/"))
  = Endpoint.buildUrl endpoint (with_baseUrl config base).
Proof.
  intros P B. unfold Endpoint.buildUrl. cbv zeta.
  cbn [TestConfig.baseUrl with_baseUrl].
  refine (join_trailing_slash base _ B _).
  destruct (0 <? _)%nat.
  - apply startsWith_slash_app, substitute_keeps_slash. exact P.
  - apply substitute_keeps_slash. exact P.
Qed.

Lemma buildUrl_trailing_slash_witness :
  let host := fixed_host 200 JNull in
  Endpoint.buildUrl (plain_endpoint "/users" GET [] [])
                    (with_baseUrl (plain_config None) "http://api.test/")
  = "http://api.test/users".
Proof.
  cbv zeta.
  refine (eq_trans
            (@buildUrl_trailing_slash (fixed_host 200 JNull)
               (plain_endpoint "/users" GET [] []) (plain_config None)
               "http://api.test" eq_refl eq_refl) _).
  reflexivity.
Defined.

(* ===================================================================== *)
(** ** Further properties of value synthesis *)
(* ===================================================================== *)

Section GeneratorShape.
Import Generator.
Variable paramValues : option (list (string * JSValue)).

Lemma js_or_truthy (a b : JSValue) : truthy b = true -> truthy (js_or a b) = true.
Proof. intros H. unfold js_or. destruct (truthy a) eqn:A; assumption. Qed.

Lemma lookup_fresh {A : Type} (k : string) (table : list (string * A)) :
  ~ In k (map fst table) -> lookup k table = None.
Proof.
  induction table as [|[k0 v0] rest IH]; intros N; [reflexivity|].
  cbn [lookup]. destruct (k0 =? k) eqn:E.
  - apply String.eqb_eq in E. exfalso. apply N. left. exact E.
  - apply IH. intros I. apply N. right. exact I.
Qed.

Lemma place_last_key {A : Type} (i : N) (k : string) (v : A) table :
  array_index k = Some i ->
  (forall k0, In k0 (map fst table) -> lists_before k0 k = true) ->
  map fst (place i k v table) = (map fst table ++ [k])%list.
Proof.
  intros K. induction table as [|[k0 v0] rest IH]; intros B; [reflexivity|].
  cbn [place]. pose proof (B k0 (or_introl eq_refl)) as B0.
  unfold lists_before in B0. rewrite K in B0.
  destruct (array_index k0) as [j|]; [|discriminate B0]. rewrite B0.
  cbn [map fst app]. rewrite IH; [reflexivity|].
  intros k1 I. apply B. right. exact I.
Qed.

(** Assigning a name the table does not own yet, and that the order of
    keys puts after the names it owns, adds that name at the end, unless
    it is [__proto__]. *)
Lemma assign_last_key {A : Type} (k : string) (v : A) table :
  ~ In k (map fst table) ->
  (forall k0, In k0 (map fst table) -> lists_before k0 k = true) ->
  map fst (assign k v table)
  = (map fst table ++ filter named [k])%list.
Proof.
  intros F B. unfold assign, define, owns. rewrite (lookup_fresh k table F).
  cbn [negb filter]. unfold named. rewrite andb_true_r.
  destruct (k =? "__proto__"); cbn [negb].
  - rewrite app_nil_r. reflexivity.
  - destruct (array_index k) as [i|] eqn:K.
    + apply place_last_key; assumption.
    + rewrite map_app. reflexivity.
Qed.

Lemma fold_assign_keys {A E : Type} (key : E -> string) (value : E -> A)
      (entries : list E) :
  forall table,
    NoDup (map fst table ++ map key entries) ->
    (forall k0 k, In k0 (map fst table) -> In k (map key entries) ->
                  lists_before k0 k = true) ->
    own_key_order (map key entries) = true ->
    map fst (fold_left (fun table e => assign (key e) (value e) table)
                       entries table)
    = (map fst table ++ filter named (map key entries))%list.
Proof.
  induction entries as [|e entries IH]; intros table N B O.
  - cbn. rewrite app_nil_r. reflexivity.
  - cbn [fold_left map] in *. cbn [own_key_order] in O.
    apply andb_true_iff in O. destruct O as [O1 O2].
    assert (F : ~ In (key e) (map fst table)).
    { intros I. apply NoDup_remove_2 in N. apply N.
      apply in_or_app. left. exact I. }
    assert (K : map fst (assign (key e) (value e) table)
                = (map fst table ++ filter named [key e])%list).
    { apply assign_last_key; [exact F|].
      intros k0 I. apply (B k0 (key e) I). left. reflexivity. }
    rewrite IH.
    + rewrite K. cbn [filter]. destruct (named (key e));
        rewrite <- app_assoc; reflexivity.
    + rewrite K. apply NoDup_remove_1 in N as N1.
      cbn [filter]. destruct (named (key e)).
      * rewrite <- app_assoc. exact N.
      * rewrite app_nil_r. exact N1.
    + intros k0 k I J. rewrite K in I.
      apply in_app_or in I. destruct I as [I|I].
      * apply (B k0 k I). right. exact J.
      * cbn [filter] in I. destruct (named (key e)); [|destruct I].
        destruct I as [<-|[]].
        rewrite forallb_forall in O1. exact (O1 k J).
    + exact O2.
Qed.

Lemma generateObject_is_object (generate : JSValue -> JSValue) schema :
  exists props, generateObjectFromSchema_body paramValues generate schema
                = JObject props.
Proof.
  unfold generateObjectFromSchema_body.
  destruct (negb _); eexists; reflexivity.
Qed.

End GeneratorShape.

Lemma generateDataFromSchema_scalar_witness :
  Generator.generateDataFromSchema None
    (JObject [("type", JString "string"); ("default", JString "d")])
  = JString "d".
Proof.
  refine (proj1 (proj2 (generateDataFromSchema_scalar None
            (JObject [("type", JString "string"); ("default", JString "d")])
            "string" (JString "test-string") eq_refl eq_refl eq_refl))
            eq_refl eq_refl).
Defined.

Lemma generateDataFromSchema_property_witness :
  own_property
    (Generator.generateDataFromSchema (Some [("x", JString "override")])
       (JObject [("type", JString "object");
                 ("properties",
                  JObject [("x", JObject [("type", JString "string")]);
                           ("n", JObject [("type", JString "integer")])])]))
    "x"
  = Some (JString "override") /\
  own_property
    (Generator.generateDataFromSchema (Some [])
       (JObject [("type", JString "object");
                 ("properties",
                  JObject [("constructor",
                            JObject [("type", JString "string")])])]))
    "constructor"
  = Some (JFunction "Object").
Proof.
  split.
  - refine (eq_trans
              (generateDataFromSchema_property (Some [("x", JString "override")])
                 (JObject [("type", JString "object");
                           ("properties",
                            JObject [("x", JObject [("type", JString "string")]);
                                     ("n", JObject [("type", JString "integer")])])])
                 [("x", JObject [("type", JString "string")]);
                  ("n", JObject [("type", JString "integer")])]
                 "x" eq_refl eq_refl eq_refl _) _); [discriminate|].
    reflexivity.
  - refine (eq_trans
              (generateDataFromSchema_property (Some [])
                 (JObject [("type", JString "object");
                           ("properties",
                            JObject [("constructor",
                                      JObject [("type", JString "string")])])])
                 [("constructor", JObject [("type", JString "string")])]
                 "constructor" eq_refl eq_refl eq_refl _) _); [discriminate|].
    reflexivity.
Defined.

(** X15: on a string, number, integer or boolean node the generated value
    is always truthy: it is never [null], [undefined], [false], [0] or
    [""], whatever the example and the default are. *)
Theorem generateDataFromSchema_scalar_truthy paramValues schema ty literal :
  truthy schema = true ->
  get_prop schema "type" = JString ty ->
  scalar_literal ty = Some literal ->
  truthy (Generator.generateDataFromSchema paramValues schema) = true.
Proof.
  intros T H L. rewrite generateDataFromSchema_eq.
  unfold Generator.generateDataFromSchema_body. rewrite T, H. cbn [negb].
  unfold scalar_literal in L.
  destruct (ty =? "string");
    [|destruct ((ty =? "number") || (ty =? "integer"));
      [|destruct (ty =? "boolean"); [|discriminate L]]];
    apply js_or_truthy; reflexivity.
Qed.

Lemma generateDataFromSchema_scalar_truthy_witness :
  truthy (Generator.generateDataFromSchema None
            (JObject [("type", JString "boolean"); ("default", JBool false)]))
  = true.
Proof.
  apply (generateDataFromSchema_scalar_truthy None
           (JObject [("type", JString "boolean"); ("default", JBool false)])
           "boolean" (JBool true)); reflexivity.
Defined.

(** X16: on an object node whose declared property names are distinct and
    come in the order in which an object lists its keys (array indices in
    ascending order, then the other names), the generated object has
    exactly the declared property names other than [__proto__], in that
    order. *)
Theorem generateDataFromSchema_object_keys paramValues schema properties :
  truthy schema = true ->
  get_prop schema "type" = JString "object" ->
  get_prop schema "properties" = JObject properties ->
  NoDup (map fst properties) ->
  own_key_order (map fst properties) = true ->
  exists generated,
    Generator.generateDataFromSchema paramValues schema = JObject generated /\
    map fst generated = filter named (map fst properties).
Proof.
  intros T H P N O. rewrite (generateDataFromSchema_object _ schema T H).
  unfold Generator.generateObjectFromSchema,
    Generator.generateObjectFromSchema_body.
  rewrite P. cbn [truthy negb Object_entries].
  eexists. split; [reflexivity|].
  rewrite (fold_left_pointwise _
             (fun body (e : string * JSValue) =>
                assign (fst e)
                       (if Generator.provided paramValues (fst e)
                        then Generator.provided_value paramValues (fst e)
                        else Generator.generateDataFromSchema paramValues (snd e))
                       body)).
  - refine (fold_assign_keys fst
             (fun e : string * JSValue =>
                if Generator.provided paramValues (fst e)
                then Generator.provided_value paramValues (fst e)
                else Generator.generateDataFromSchema paramValues (snd e))
             properties [] N _ O).
    intros k0 k [].
  - intros body [propName propSchema]. cbn [fst snd].
    destruct (Generator.provided paramValues propName); reflexivity.
Qed.

Lemma generateDataFromSchema_object_keys_witness :
  exists generated,
    Generator.generateDataFromSchema None
      (JObject [("type", JString "object");
                ("properties",
                 JObject [("1", JObject [("type", JString "boolean")]);
                          ("name", JObject [("type", JString "string")]);
                          ("age", JObject [("type", JString "integer")])])])
    = JObject generated /\
    map fst generated = ["1"; "name"; "age"].
Proof.
  apply (generateDataFromSchema_object_keys None
           (JObject [("type", JString "object");
                     ("properties",
                      JObject [("1", JObject [("type", JString "boolean")]);
                               ("name", JObject [("type", JString "string")]);
                               ("age", JObject [("type", JString "integer")])])])
           [("1", JObject [("type", JString "boolean")]);
            ("name", JObject [("type", JString "string")]);
            ("age", JObject [("type", JString "integer")])]);
    try reflexivity.
  repeat constructor; cbn; intuition discriminate.
Defined.

(** X17: the generated value is never [undefined]; it is [null] exactly
    when the node is falsy or its [type] is a string outside the six
    recognised tags; an array node yields an array of at most one element
    and an object node yields an object. *)
Theorem generateDataFromSchema_shape paramValues schema :
  let value := Generator.generateDataFromSchema paramValues schema in
  value <> JUndefined /\
  (value = JNull <->
   truthy schema = false \/
   exists ty, get_prop schema "type" = JString ty /\ recognised_type ty = false) /\
  (truthy schema = true -> get_prop schema "type" = JString "array" ->
   exists items, value = JArray items /\ List.length items <= 1) /\
  (truthy schema = true -> get_prop schema "type" = JString "object" ->
   exists props, value = JObject props).
Proof.
  cbv zeta. rewrite generateDataFromSchema_eq.
  unfold Generator.generateDataFromSchema_body.
  destruct (truthy schema) eqn:T; cbn [negb].
  2:{ split; [discriminate|]. split; [split; [left; reflexivity|reflexivity]|].
      split; discriminate. }
  destruct (get_prop schema "type") as [| |b|n|ty|xs|ps|f] eqn:H;
    try (split; [destruct (truthy (get_prop schema "$ref")); discriminate|];
         split; [|split; discriminate];
         split; [destruct (truthy (get_prop schema "$ref")); discriminate|];
         intros [F|(ty & E & _)]; discriminate).
  assert (S : forall literal, truthy literal = true ->
                forall a b, js_or (js_or a b) literal <> JUndefined /\
                            js_or (js_or a b) literal <> JNull).
  { intros literal L a b.
    pose proof (js_or_truthy (js_or a b) literal L) as Tr.
    split; intros E; rewrite E in Tr; discriminate Tr. }
  unfold recognised_type. cbn [existsb].
  destruct (ty =? "string") eqn:E1.
  { destruct (S (JString "test-string") eq_refl
                (get_prop schema "example") (get_prop schema "default"))
      as [S1 S2].
    apply String.eqb_eq in E1. subst ty.
    split; [exact S1|]. split; [|split; discriminate].
    split; [intros E; contradiction|].
    intros [F|(ty & E & R)]; [discriminate|]. inversion E. subst. discriminate R. }
  destruct ((ty =? "number") || (ty =? "integer")) eqn:E2.
  { destruct (S (JNumber 123) eq_refl
                (get_prop schema "example") (get_prop schema "default"))
      as [S1 S2].
    split; [exact S1|]. split.
    - split; [intros E; contradiction|].
      intros [F|(ty' & E & R)]; [discriminate|]. inversion E. subst ty'.
      cbn [existsb] in R. rewrite E1 in R. cbn [orb] in R.
      apply orb_true_iff in E2.
      destruct E2 as [E2|E2]; rewrite E2 in R; cbn in R;
        rewrite ?orb_true_r in R; discriminate R.
    - split; intros _ E; inversion E; subst; discriminate. }
  apply orb_false_iff in E2. destruct E2 as [E2 E3].
  destruct (ty =? "boolean") eqn:E4.
  { destruct (S (JBool true) eq_refl
                (get_prop schema "example") (get_prop schema "default"))
      as [S1 S2].
    apply String.eqb_eq in E4. subst ty.
    split; [exact S1|]. split; [|split; discriminate].
    split; [intros E; contradiction|].
    intros [F|(ty & E & R)]; [discriminate|]. inversion E. subst. discriminate R. }
  destruct (ty =? "array") eqn:E5.
  { apply String.eqb_eq in E5. subst ty.
    split; [destruct (truthy (get_prop schema "items")); discriminate|].
    split; [|split; [|discriminate]].
    - split; [destruct (truthy (get_prop schema "items")); discriminate|].
      intros [F|(ty & E & R)]; [discriminate|]. inversion E. subst.
      discriminate R.
    - intros _ _. destruct (truthy (get_prop schema "items"));
        eexists; (split; [reflexivity|cbn; lia]). }
  destruct (ty =? "object") eqn:E6.
  { apply String.eqb_eq in E6. subst ty.
    destruct (generateObject_is_object paramValues
                (Generator.generateDataFromSchema paramValues) schema)
      as [props P].
    rewrite P. split; [discriminate|]. split; [|split; [discriminate|]].
    - split; [discriminate|].
      intros [F|(ty & E & R)]; [discriminate|]. inversion E. subst.
      discriminate R.
    - intros _ _. exists props. reflexivity. }
  split; [discriminate|]. split.
  - split; [|reflexivity]. intros _. right. exists ty. split; [reflexivity|].
    rewrite E1, E2, E3, E4, E5, E6. reflexivity.
  - split; intros _ E; inversion E; subst; discriminate.
Qed.

Lemma generateDataFromSchema_shape_witness :
  exists items,
    Generator.generateDataFromSchema None
      (JObject [("type", JString "array");
                ("items", JObject [("type", JString "integer")])])
    = JArray items /\ List.length items <= 1.
Proof.
  apply (proj1 (proj2 (proj2 (generateDataFromSchema_shape None
           (JObject [("type", JString "array");
                     ("items", JObject [("type", JString "integer")])])))));
    reflexivity.
Defined.

(* ===================================================================== *)
(** ** Further properties of execution and of the orchestrator *)
(* ===================================================================== *)

Section SequentialRun.
Context {host : Host}.
Import Eff Endpoint Testers.




End SequentialRun.



(** X19: with schema validation enabled, a report entry whose status is a
    success code and whose body is truthy is a success exactly when
    [validateResponseSchema] accepts that body for that status; when it
    does not, the entry's error is the schema failure text, and its status
    code and body are kept. *)
Theorem report_schema_verdict {host : Host}
        (endpoints : list ApiEndpoint.t) (config : TestConfig.t) (w : World) :
  exists results,
    Testers.report endpoints config w = Some results /\
    forall r status,
      In r results ->
      EndpointTestResult.statusCode r = Some status ->
      In status (Endpoint.successStatusCodes (EndpointTestResult.endpoint r)) ->
      Testers.validateSchema_enabled config = true ->
      truthy (EndpointTestResult.responseBody r) = true ->
      let verdict :=
        Schema.validateResponseSchema (EndpointTestResult.endpoint r) status
                                      (EndpointTestResult.responseBody r) in
      (EndpointTestResult.success r = true <->
       SchemaValidationResult.valid verdict = true) /\
      (SchemaValidationResult.valid verdict = true ->
       EndpointTestResult.error r = None) /\
      (SchemaValidationResult.valid verdict = false ->
       EndpointTestResult.error r = Some (Testers.schema_failure verdict)).
Proof.
  destruct (report_run endpoints config w) as (objs & R & F).
  exists objs. split; [exact R|]. clear R.
  intros r status I.
  assert (P : exists endpoint, produced config endpoint r).
  { clear -F I. induction F as [|endpoint o endpoints objs P F IH];
      [destruct I|].
    destruct I as [<-|I]; [exists endpoint; exact P|exact (IH I)]. }
  destruct P as (endpoint & t0 & t1 & outcome & ->).
  destruct (checked_keeps config endpoint
                          (raw_result endpoint t0 t1 outcome)) as (KE & KS & KB).
  rewrite KE, KS, KB. clear KE KS KB.
  destruct outcome as [response|error]; cbn [raw_result];
    cbn [EndpointTestResult.statusCode EndpointTestResult.endpoint
         EndpointTestResult.responseBody];
    [|discriminate].
  intros E M V B. inversion E. subst status. clear E. cbv zeta.
  apply existsb_Zeqb_In in M.
  unfold checked, Testers.schemaResult_for.
  cbn [EndpointTestResult.statusCode EndpointTestResult.success
       EndpointTestResult.responseBody].
  rewrite V, M, B. cbn [andb].
  destruct (SchemaValidationResult.valid
              (Schema.validateResponseSchema endpoint
                 (AxiosResponse.status response) (AxiosResponse.data response)));
    cbn [negb Testers.fail_with EndpointTestResult.success
         EndpointTestResult.error].
  - split; [tauto|]. split; [reflexivity|discriminate].
  - split; [split; discriminate|]. split; [discriminate|reflexivity].
Qed.

Lemma report_schema_verdict_witness :
  let host := fixed_host 200 (JNumber 1) in
  let endpoint :=
    plain_endpoint "/count" GET []
      [Response.mk 200 "OK" JSON (JObject [("type", JString "object")])] in
  let config :=
    TestConfig.mk "http://localhost:3000" None None (Some true) None in
  exists results,
    Testers.report [endpoint] config tt = Some results /\
    forall r, In r results ->
              EndpointTestResult.error r
              = Some "Schema validation failed: [object Object]".
Proof.
  cbv zeta.
  destruct (@report_schema_verdict (fixed_host 200 (JNumber 1))
              [plain_endpoint "/count" GET []
                 [Response.mk 200 "OK" JSON
                    (JObject [("type", JString "object")])]]
              (TestConfig.mk "http://localhost:3000" None None (Some true) None)
              tt) as (results & R & H).
  exists results. split; [exact R|].
  intros r I.
  assert (E : results
              = [EndpointTestResult.mk
                   (plain_endpoint "/count" GET []
                      [Response.mk 200 "OK" JSON
                         (JObject [("type", JString "object")])])
                   false (Some 200%Z) (Some 0%Z)
                   (Some "Schema validation failed: [object Object]")
                   (JNumber 1)]).
  { vm_compute in R. inversion R. reflexivity. }
  rewrite E in H, I. destruct I as [<-|[]].
  refine (proj2 (proj2 (H _ 200%Z (or_introl eq_refl) eq_refl _ eq_refl eq_refl))
                eq_refl).
  left. reflexivity.
Defined.


(* ===================================================================== *)
(** ** Further properties of validation *)
(* ===================================================================== *)

Section MoreValidationFacts.
Import Schema.

Lemma filter_nil_when {A : Type} (f : A -> bool) (xs : list A) :
  (forall x, In x xs -> f x = false) -> filter f xs = [].
Proof.
  induction xs as [|x xs IH]; intros H; [reflexivity|].
  cbn [filter]. rewrite (H x (or_introl eq_refl)).
  apply IH. intros y I. apply H. right. exact I.
Qed.

Lemma get_of_named (value : Param.t -> JSValue) (ps : list Param.t) (p : Param.t) :
  NoDup (map Param.name ps) ->
  In p ps ->
  get (map (fun p => (Param.name p, value p)) ps) (Param.name p) = value p.
Proof.
  unfold get. induction ps as [|q ps IH]; intros N I; [destruct I|].
  cbn [map lookup]. inversion N as [|x l F N']. subst.
  destruct I as [->|I]; [rewrite String.eqb_refl; reflexivity|].
  destruct (Param.name q =? Param.name p) eqn:E.
  - apply String.eqb_eq in E. exfalso. apply F. rewrite E.
    apply in_map. exact I.
  - exact (IH N' I).
Qed.

(** The literal of a parameter without example has the declared type. *)
Lemma literal_has_type (p : Param.t) (config : TestConfig.t) :
  TestConfig.paramValues config = None ->
  Param.example p = JUndefined
  \/ (truthy (Param.example p) = true
      /\ has_type (Param.type p) (Param.example p) = true) ->
  is_defined (Endpoint.getParameterValue p config) = true /\
  has_type (Param.type p) (Endpoint.getParameterValue p config) = true.
Proof.
  intros O H. unfold Endpoint.getParameterValue. rewrite O.
  cbn [Generator.provided]. unfold js_or.
  destruct H as [H|[T H]].
  - rewrite H. cbn [truthy]. unfold has_type.
    destruct (Param.type p =? "string") eqn:E1.
    { apply String.eqb_eq in E1. rewrite E1. split; reflexivity. }
    destruct (Param.type p =? "number") eqn:E2.
    { apply String.eqb_eq in E2. rewrite E2. split; reflexivity. }
    destruct (Param.type p =? "integer") eqn:E3.
    { apply String.eqb_eq in E3. rewrite E3. split; reflexivity. }
    cbn [orb].
    destruct (Param.type p =? "boolean") eqn:E4; [split; reflexivity|].
    destruct (Param.type p =? "array") eqn:E5; [split; reflexivity|].
    destruct (Param.type p =? "object") eqn:E6; split; reflexivity.
  - rewrite T.
    assert (D : is_defined (Param.example p) = true)
      by (destruct (Param.example p); try reflexivity; discriminate T).
    repeat match goal with
           | |- context [if ?c then _ else _] => destruct c
           end; split; assumption.
Qed.

End MoreValidationFacts.

(** X21: when the declared schema compiles, [validateResponseSchema]
    follows the validator: it is valid without errors when the validator
    accepts the body; invalid with the validator's own list of errors (or
    the single violation ["Unknown validation error"] when that list is
    [null]) when it rejects the body; and invalid with the thrown error's
    message as single violation when the validator throws. *)
Theorem validateResponseSchema_verdict {host : Host}
        (endpoint : ApiEndpoint.t) (statusCode : Z) (responseBody : JSValue)
        (definition : Response.t)
        (validate : JSValue -> Outcome ValidateResult.t) :
  find (fun r => (Response.statusCode r =? statusCode)%Z)
       (ApiEndpoint.responses endpoint) = Some definition ->
  truthy (Response.schema definition) = true ->
  Ajv_compile (Response.schema definition) = Returns validate ->
  let result := Schema.validateResponseSchema endpoint statusCode responseBody in
  (forall outcome,
      validate responseBody = Returns outcome ->
      ValidateResult.passed outcome = true ->
      result = SchemaValidationResult.mk endpoint true None) /\
  (forall outcome,
      validate responseBody = Returns outcome ->
      ValidateResult.passed outcome = false ->
      result = SchemaValidationResult.mk endpoint false
                 (Some (match ValidateResult.errors outcome with
                        | Some errors => errors
                        | None =>
                            [JObject [("message",
                                       JString "Unknown validation error")]]
                        end))) /\
  (forall error,
      validate responseBody = Throws error ->
      result = SchemaValidationResult.mk endpoint false
                 (Some [JObject [("message", JString (error_message error))]])).
Proof.
  intros F T C. cbv zeta. unfold Schema.validateResponseSchema.
  rewrite F, T, C. cbn [negb].
  split; [|split].
  - intros outcome V P. rewrite V, P. reflexivity.
  - intros outcome V P. rewrite V, P. reflexivity.
  - intros error V. rewrite V. reflexivity.
Qed.

Lemma validateResponseSchema_verdict_witness :
  let host := verdict_host (Returns (ValidateResult.mk false None)) in
  let endpoint :=
    plain_endpoint "/things" GET []
      [Response.mk 200 "OK" JSON (JObject [("type", JString "object")])] in
  Schema.validateResponseSchema endpoint 200 (JString "text")
  = SchemaValidationResult.mk endpoint false
      (Some [JObject [("message", JString "Unknown validation error")]]).
Proof.
  cbv zeta.
  exact (proj1 (proj2 (@validateResponseSchema_verdict
           (verdict_host (Returns (ValidateResult.mk false None)))
           (plain_endpoint "/things" GET []
              [Response.mk 200 "OK" JSON (JObject [("type", JString "object")])])
           200 (JString "text")
           (Response.mk 200 "OK" JSON (JObject [("type", JString "object")]))
           (fun _ => Returns (ValidateResult.mk false None))
           eq_refl eq_refl eq_refl))
           (ValidateResult.mk false None) eq_refl eq_refl).
Defined.

(** X22: both validators attach a list of errors exactly to their invalid
    results; the list [validateRequestParams] attaches is never empty and
    each of its entries is an object with the single field [message]. *)
Theorem validators_errors_iff_invalid {host : Host}
        (endpoint : ApiEndpoint.t) (statusCode : Z) (responseBody : JSValue)
        (params : list (string * JSValue)) :
  let response := Schema.validateResponseSchema endpoint statusCode responseBody in
  let request := Schema.validateRequestParams endpoint params in
  (SchemaValidationResult.valid response = true <->
   SchemaValidationResult.errors response = None) /\
  (SchemaValidationResult.valid request = true <->
   SchemaValidationResult.errors request = None) /\
  (forall errors,
      SchemaValidationResult.errors request = Some errors ->
      errors <> [] /\
      forall e, In e errors ->
                exists message, e = JObject [("message", JString message)]).
Proof.
  cbv zeta. split; [|split].
  - unfold Schema.validateResponseSchema.
    destruct (find _ _) as [definition|]; [|split; reflexivity].
    destruct (negb _); [split; reflexivity|].
    destruct (Ajv_compile _) as [validate|error]; [|split; discriminate].
    destruct (validate responseBody) as [outcome|error]; [|split; discriminate].
    destruct (negb _); split; try reflexivity; discriminate.
  - unfold Schema.validateRequestParams.
    repeat match goal with
           | |- context [if ?c then _ else _] => destruct c
           end; split; try reflexivity; discriminate.
  - unfold Schema.validateRequestParams.
    rewrite missingParams_eq, typeErrors_eq, !length_map, !nonempty_length.
    destruct (filter (is_missing params) (ApiEndpoint.parameters endpoint))
      as [|m ms]; cbn [negb].
    + destruct (filter (is_mismatch params) (ApiEndpoint.parameters endpoint))
        as [|t ts]; cbn [negb SchemaValidationResult.errors]; [discriminate|].
      intros errors E. inversion E. subst errors. split; [discriminate|].
      intros e I.
      change (In e (map (mismatch_violation params) (t :: ts))) in I.
      apply in_map_iff in I. destruct I as (p & <- & _).
      eexists. reflexivity.
    + cbn [SchemaValidationResult.errors]. intros errors E. inversion E.
      subst errors. split; [discriminate|].
      intros e I.
      change (In e (map (fun name => Schema.violation
                                       ("Missing required parameter: " ++ name))
                        (map Param.name (m :: ms)))) in I.
      apply in_map_iff in I. destruct I as (name & <- & _).
      eexists. reflexivity.
Qed.

Lemma validators_errors_iff_invalid_witness :
  exists message,
    JObject [("message", JString "Missing required parameter: a")]
    = JObject [("message", JString message)].
Proof.
  exact (proj2 (proj2 (proj2 (@validators_errors_iff_invalid strict_host
           (plain_endpoint "/things" GET [required_param "a" "string"] [])
           200 JNull []))
           [JObject [("message", JString "Missing required parameter: a")]]
           eq_refl)
           (JObject [("message", JString "Missing required parameter: a")])
           (or_introl eq_refl)).
Defined.

(** X23: the values the synthesizer generates pass the parameter check:
    for an endpoint with distinct parameter names whose examples, where
    present, are truthy and of the declared type, and a configuration
    without overrides, supplying every parameter's synthesized value is
    valid. *)
Theorem synthesized_params_are_valid
        (endpoint : ApiEndpoint.t) (config : TestConfig.t) :
  TestConfig.paramValues config = None ->
  NoDup (map Param.name (ApiEndpoint.parameters endpoint)) ->
  (forall p, In p (ApiEndpoint.parameters endpoint) ->
             Param.example p = JUndefined
             \/ (truthy (Param.example p) = true
                 /\ has_type (Param.type p) (Param.example p) = true)) ->
  Schema.validateRequestParams endpoint (synthesized_params endpoint config)
  = SchemaValidationResult.mk endpoint true None.
Proof.
  intros O N H. unfold Schema.validateRequestParams.
  rewrite missingParams_eq, typeErrors_eq.
  assert (G : forall p, In p (ApiEndpoint.parameters endpoint) ->
                get (synthesized_params endpoint config) (Param.name p)
                = Endpoint.getParameterValue p config).
  { intros p I. unfold synthesized_params.
    apply (get_of_named (fun p => Endpoint.getParameterValue p config));
      assumption. }
  rewrite (filter_nil_when (is_missing _)), (filter_nil_when (is_mismatch _)).
  - reflexivity.
  - intros p I. unfold is_mismatch. rewrite (G p I).
    destruct (literal_has_type p config O (H p I)) as [D T].
    rewrite D, T. reflexivity.
  - intros p I. unfold is_missing. rewrite (G p I).
    destruct (literal_has_type p config O (H p I)) as [D T].
    rewrite D. apply andb_false_r.
Qed.

Lemma synthesized_params_are_valid_witness :
  let endpoint :=
    plain_endpoint "/users/:id" GET
      [required_param "id" "integer"; required_param "tags" "array";
       required_param "active" "boolean"] [] in
  Schema.validateRequestParams endpoint
    (synthesized_params endpoint (plain_config None))
  = SchemaValidationResult.mk endpoint true None.
Proof.
  cbv zeta. apply synthesized_params_are_valid.
  - reflexivity.
  - repeat constructor; cbn; intuition discriminate.
  - intros p [<-|[<-|[<-|[]]]]; left; reflexivity.
Defined.

(** X24: [validateRequestParams] looks at the supplied values of declared
    parameters only: two maps of supplied values that agree on every
    declared parameter name get the same result, so a value supplied under
    an undeclared name never causes a violation. *)
Theorem validateRequestParams_declared_only
        (endpoint : ApiEndpoint.t) (params params' : list (string * JSValue)) :
  (forall p, In p (ApiEndpoint.parameters endpoint) ->
             get params (Param.name p) = get params' (Param.name p)) ->
  Schema.validateRequestParams endpoint params
  = Schema.validateRequestParams endpoint params'.
Proof.
  intros H. unfold Schema.validateRequestParams.
  rewrite !missingParams_eq, !typeErrors_eq.
  assert (M : filter (is_missing params) (ApiEndpoint.parameters endpoint)
              = filter (is_missing params') (ApiEndpoint.parameters endpoint)).
  { apply filter_ext_in. intros p I. unfold is_missing. rewrite (H p I).
    reflexivity. }
  assert (T : filter (is_mismatch params) (ApiEndpoint.parameters endpoint)
              = filter (is_mismatch params') (ApiEndpoint.parameters endpoint)).
  { apply filter_ext_in. intros p I. unfold is_mismatch. rewrite (H p I).
    reflexivity. }
  assert (V : map (mismatch_violation params)
                  (filter (is_mismatch params') (ApiEndpoint.parameters endpoint))
              = map (mismatch_violation params')
                    (filter (is_mismatch params')
                            (ApiEndpoint.parameters endpoint))).
  { apply map_ext_in. intros p I. apply filter_In in I. destruct I as [I _].
    unfold mismatch_violation. rewrite (H p I). reflexivity. }
  rewrite M, T, V. reflexivity.
Qed.

Lemma validateRequestParams_declared_only_witness :
  let endpoint := plain_endpoint "/things" GET [required_param "a" "string"] [] in
  Schema.validateRequestParams endpoint
    [("a", JString "x"); ("debug", JBool true)]
  = Schema.validateRequestParams endpoint [("a", JString "x")].
Proof.
  cbv zeta. apply validateRequestParams_declared_only.
  intros p [<-|[]]. reflexivity.
Defined.

(** X25: the request never carries a timeout of [0]: an absent or zero
    [config.timeout] becomes 5000 and any other value is passed on; and it
    never carries a falsy body: the data attached is absent or truthy, so a
    body generated as [null] is not sent. *)
Theorem axiosConfig_never_zero_timeout {host : Host}
        (endpoint : ApiEndpoint.t) (config : TestConfig.t) :
  let request := Endpoint.axiosConfig endpoint config in
  AxiosRequestConfig.timeout request <> 0%Z /\
  (forall ms, TestConfig.timeout config = Some ms -> ms <> 0%Z ->
              AxiosRequestConfig.timeout request = ms) /\
  (TestConfig.timeout config = None \/ TestConfig.timeout config = Some 0%Z ->
   AxiosRequestConfig.timeout request = 5000%Z) /\
  (AxiosRequestConfig.data request = JUndefined \/
   truthy (AxiosRequestConfig.data request) = true).
Proof.
  cbv zeta. unfold Endpoint.axiosConfig.
  cbn [AxiosRequestConfig.timeout AxiosRequestConfig.data].
  split; [|split; [|split]].
  - destruct (TestConfig.timeout config) as [ms|]; [|discriminate].
    destruct (ms =? 0)%Z eqn:E; [discriminate|]. apply Z.eqb_neq. exact E.
  - intros ms E N. rewrite E. apply Z.eqb_neq in N. rewrite N. reflexivity.
  - intros [E|E]; rewrite E; reflexivity.
  - destruct (truthy (Endpoint.buildRequestBody endpoint config)) eqn:T;
      [|left; reflexivity].
    destruct (Endpoint.carries_body endpoint); [right; exact T|left; reflexivity].
Qed.

Lemma axiosConfig_never_zero_timeout_witness :
  AxiosRequestConfig.timeout
    (@Endpoint.axiosConfig (fixed_host 200 JNull)
       (plain_endpoint "/users" GET [] [])
       (TestConfig.mk "http://localhost:3000" None (Some 0%Z) None None))
  = 5000%Z.
Proof.
  apply (proj1 (proj2 (proj2 (@axiosConfig_never_zero_timeout
           (fixed_host 200 JNull) (plain_endpoint "/users" GET [] [])
           (TestConfig.mk "http://localhost:3000" None (Some 0%Z) None None))))).
  right. reflexivity.
Defined.

Section SingleNotation.
Import Parser Spec.

Lemma filter_all {A : Type} (f g : A -> bool) (xs : list A) :
  (forall x, f x = negb (g x)) ->
  filter g xs = [] -> filter f xs = xs.
Proof.
  intros H. induction xs as [|x xs IH]; [reflexivity|].
  cbn [filter]. rewrite (H x). destruct (g x); [discriminate|].
  intros E. cbn [negb]. rewrite (IH E). reflexivity.
Qed.

Lemma colon_or_brace (o : Notation * string) :
  is_colon o = negb (is_brace o) /\ is_brace o = negb (is_colon o).
Proof. destruct o as [[] name]; split; reflexivity. Qed.

End SingleNotation.

(** X26: on a path that uses a single notation (no opening brace, or no
    colon), [parseRouteParams] returns the parameter names in left-to-right
    order of their occurrence. *)
Theorem parseRouteParams_single_notation (path : string) :
  includes "{" path = false \/ includes ":" path = false ->
  Parser.parseRouteParams path = Spec.extractParameters_in_order path.
Proof.
  rewrite !includes_char.
  destruct (exec_loops_partition (String.length path) path (le_n _)) as [C B].
  unfold Parser.parseRouteParams, Spec.extractParameters_in_order.
  unfold colon_names, brace_names in *.
  intros [H|H].
  - assert (E : Parser.exec_loop Parser.BraceParam path = []).
    { rewrite exec_loop_eq, (exec_none Parser.BraceParam path H). reflexivity. }
    rewrite C, E, app_nil_r. rewrite E in B. symmetry in B.
    apply map_eq_nil in B.
    rewrite (filter_all Spec.is_colon Spec.is_brace _
               (fun o => proj1 (colon_or_brace o)) B).
    reflexivity.
  - assert (E : Parser.exec_loop Parser.ColonParam path = []).
    { rewrite exec_loop_eq, (exec_none Parser.ColonParam path H). reflexivity. }
    rewrite B, E. cbn [app]. rewrite E in C. symmetry in C.
    apply map_eq_nil in C.
    rewrite (filter_all Spec.is_brace Spec.is_colon _
               (fun o => proj2 (colon_or_brace o)) C).
    reflexivity.
Qed.

Lemma parseRouteParams_single_notation_witness :
  Parser.parseRouteParams "/orgs/:org/repos/:repo"
  = Spec.extractParameters_in_order "/orgs/:org/repos/:repo".
Proof.
  apply parseRouteParams_single_notation. left. reflexivity.
Defined.
